(** * The "Before and After MMLSpark" sample notebook

    A shallow embedding of the code cells of
    [notebooks/samples/103 - Before and After MMLSpark.ipynb] and the
    properties its specification states about them.

    - Python [str] values are Rocq strings; a character is a code point
      below 256, and [isspace] is Python's [str.isspace] on those.
    - Python [float] values are IEEE binary64 numbers, taken from the
      Standard Library's executable specification [SpecFloat].
    - Spark data frames are lists of rows, a row is an association list
      from column names to values, in schema order.  A frame is computed
      where it is defined: what Spark refuses when it evaluates a row is
      refused here by the step that defines the frame.
    - The notebook's effects (files, network, standard output) are threaded
      through a state and error monad over a [World]. *)

From Stdlib Require Import ZArith List String Ascii Lia.
From Stdlib Require Import Floats.SpecFloat.
From stdpp Require Import gmap strings list numbers pretty.
Import ListNotations.
Open Scope string_scope.

(** ** Python strings *)

Module PyStr.

(** [str.isspace] for one character: TAB, LF, VT, FF, CR, the separators
    FS, GS, RS, US, the space, NEL (0x85) and the no-break space (0xA0). *)
Definition isspace (c : ascii) : bool :=
  let n := N_of_ascii c in
  (((9 <=? n) && (n <=? 13)) || ((28 <=? n) && (n <=? 32))
   || (n =? 133) || (n =? 160))%N.

(** [s.split()] with no separator: runs of whitespace separate the words,
    leading and trailing whitespace is dropped.  [cur] is the word being
    scanned. *)
Fixpoint split_from (cur : string) (s : string) : list string :=
  match s with
  | EmptyString => match cur with EmptyString => [] | _ => [cur] end
  | String c s' =>
      if isspace c
      then match cur with
           | EmptyString => split_from EmptyString s'
           | _ => cur :: split_from EmptyString s'
           end
      else split_from (cur +:+ String c EmptyString) s'
  end.

Definition split (s : string) : list string := split_from EmptyString s.

(** [len(w)] *)
Definition len (w : string) : Z := Z.of_nat (String.length w).

End PyStr.

(** ** Python floats: IEEE binary64 *)

Module Float64.

Definition prec : Z := 53.
Definition emax : Z := 1024.

Definition float := spec_float.

Definition nan : float := S754_nan.

(** Conversion of an integer, rounding to nearest even. *)
Definition of_Z (z : Z) : float := binary_normalize prec emax z 0 false.

(** [x / y] *)
Definition div (x y : float) : float := SFdiv prec emax x y.

(** The double nearest to the ratio [p / q] of two positive integers, with
    sign [s]: what [strtod] returns on a decimal numeral. *)
Definition nearest_ratio (s : bool) (p q : positive) : float :=
  let '(m, e, l) := SFdiv_core_binary prec emax (Zpos p) 0 (Zpos q) 0 in
  binary_round_aux prec emax s m e l.

(** The integer nearest to [n / d], ties to even, for [0 <= n] and [0 < d]. *)
Definition round_half_even (n d : Z) : Z :=
  let q := (n / d)%Z in
  let r := (n mod d)%Z in
  match (2 * r ?= d)%Z with
  | Lt => q
  | Gt => (q + 1)%Z
  | Eq => if Z.even q then q else (q + 1)%Z
  end.

(** The integer nearest to [m * 2^e * 10^ndigits], ties to even. *)
Definition scaled_digits (m : positive) (e : Z) (ndigits : nat) : Z :=
  let n := (Zpos m * 10 ^ Z.of_nat ndigits)%Z in
  match e with
  | Zneg p => round_half_even n (2 ^ Zpos p)
  | _ => (n * 2 ^ e)%Z
  end.

(** [round(x, ndigits)] for [0 <= ndigits]: the correctly rounded decimal
    with [ndigits] digits after the point of the exact value of [x], read
    back as a double.  NaN, the infinities and the zeros round to
    themselves. *)
Definition py_round (x : float) (ndigits : nat) : float :=
  match x with
  | S754_finite s m e =>
      match scaled_digits m e ndigits with
      | Zpos k => nearest_ratio s k (Z.to_pos (10 ^ Z.of_nat ndigits))
      | _ => S754_zero s
      end
  | _ => x
  end.

(** A decimal literal [p / q] of the source, e.g. [0.05] is [literal 5 100]. *)
Definition literal (p q : positive) : float := nearest_ratio false p q.

(** [x > y] and [x == y] *)
Definition gt (x y : float) : bool := SFltb y x.
Definition eqb (x y : float) : bool := SFeqb x y.

(** [numpy.mean] of a list of Python integers: the sum, accumulated in
    binary64 (exactly, as long as it stays below 2^53), divided by the
    number of elements.  The mean of the empty list is [0.0 / 0]. *)
Definition np_mean (xs : list Z) : float :=
  div (of_Z (fold_right Z.add 0%Z xs)) (of_Z (Z.of_nat (length xs))).

(** *** The order of the numbers *)

(** A key that orders the numbers as [SFcompare] does, lexicographically
    (NaN, which compares with no number, has a key of its own). *)
Definition key (x : float) : Z * Z * Z :=
  match x with
  | S754_zero _ => (0, 0, 0)
  | S754_infinity s => (if s then -2 else 2, 0, 0)
  | S754_nan => (3, 0, 0)
  | S754_finite false m e => (1, e, Zpos m)
  | S754_finite true m e => (-1, - e, Zneg m)
  end%Z.

Definition lex_lt (a b : Z * Z * Z) : Prop :=
  let '(a1, a2, a3) := a in
  let '(b1, b2, b3) := b in
  (a1 < b1 \/ (a1 = b1 /\ (a2 < b2 \/ (a2 = b2 /\ a3 < b3))))%Z.

Definition lt (x y : float) : Prop := lex_lt (key x) (key y).
Definition same (x y : float) : Prop := key x = key y.

Definition number (x : float) : Prop := x <> nan.

(** *** Correct rounding *)

(** [l] locates the fraction [num / den] of a unit, for [0 <= num < den]. *)
Definition describes (l : location) (num den : Z) : Prop :=
  l = if (num =? 0)%Z then loc_Exact else loc_Inexact (2 * num ?= den)%Z.

(** The quotient of two positive numbers [m1 * 2^e1] and [m2 * 2^e2], rounded. *)
Definition round_div (m1 : positive) (e1 : Z) (m2 : positive) (e2 : Z) : float :=
  let '(mz, ez, lz) := SFdiv_core_binary prec emax (Zpos m1) e1 (Zpos m2) e2 in
  binary_round_aux prec emax false mz ez lz.

(** [x] is a normal double within half a unit in its last place of [p / q]. *)
Definition rounds_ratio (x : float) (p q : Z) : Prop :=
  exists m e, x = S754_finite false m e
    /\ (2 ^ 52 <= Zpos m < 2 ^ 53 /\ e <= 0
        /\ 2 * Z.abs (q * Zpos m - p * 2 ^ (- e)) <= q)%Z.

End Float64.

(** ** Cell 3: the two derived numeric features *)

Definition word_count (s : string) : Z :=
  Z.of_nat (length (PyStr.split s)).

Definition word_length (s : string) : Float64.float :=
  let ss := map PyStr.len (PyStr.split s) in
  Float64.py_round (Float64.np_mean ss) 2.

(** ** Spark data frames *)

Module Spark.

Import Float64.

Inductive value :=
| VInt (z : Z)                    (* IntegerType / LongType *)
| VDouble (x : float)             (* DoubleType *)
| VBool (b : bool)                (* BooleanType *)
| VString (s : string)            (* StringType *)
| VArray (ws : list string)       (* ArrayType(StringType) *)
| VVector (v : list float).       (* ml.linalg.Vector *)

Definition Row := list (string * value).
Definition DataFrame := list Row.

(** [row[name]] *)
Fixpoint field (name : string) (r : Row) : option value :=
  match r with
  | [] => None
  | (n, v) :: r' => if String.eqb n name then Some v else field name r'
  end.

(** Replace the column [name] where it stands, or add it as last column. *)
Fixpoint set_field (name : string) (v : value) (r : Row) : Row :=
  match r with
  | [] => [(name, v)]
  | (n, w) :: r' =>
      if String.eqb n name then (n, v) :: r' else (n, w) :: set_field name v r'
  end.

Definition remove_field (name : string) (r : Row) : Row :=
  List.filter (fun nv => negb (String.eqb (fst nv) name)) r.

(** Column expressions, as far as the notebook builds them. *)
Inductive Column :=
| Col (name : string)                     (* "name", df["name"], df.name *)
| GtLit (c : Column) (n : Z)              (* c > n *)
| Udf (f : string -> value) (c : Column)  (* a Python udf over a string *)
| Alias (c : Column) (name : string)      (* c.alias(name) *)
| CastInt (c : Column).                   (* c.cast(IntegerType()) *)

Fixpoint eval (c : Column) (r : Row) : option value :=
  match c with
  | Col name => field name r
  | GtLit c n =>
      match eval c r with
      | Some (VInt z) => Some (VBool (n <? z)%Z)
      | _ => None
      end
  | Udf f c =>
      match eval c r with
      | Some (VString s) => Some (f s)
      | _ => None
      end
  | Alias c _ => eval c r
  | CastInt c =>
      match eval c r with
      | Some (VInt z) => Some (VInt z)
      | Some (VBool b) => Some (VInt (if b then 1 else 0))
      | _ => None
      end
  end.

(** The name of the column a selected expression produces; expressions
    that Spark would give a generated name are not selected here. *)
Definition name_of (c : Column) : option string :=
  match c with
  | Col name => Some name
  | Alias _ name => Some name
  | _ => None
  end.

Definition select_row (cols : list Column) (r : Row) : option Row :=
  mapM (fun c => n ← name_of c; v ← eval c r; Some (n, v)) cols.

Definition select (cols : list Column) (df : DataFrame) : option DataFrame :=
  mapM (select_row cols) df.

Definition withColumn (name : string) (c : Column) (df : DataFrame)
  : option DataFrame :=
  mapM (fun r => v ← eval c r; Some (set_field name v r)) df.

Definition drop (name : string) (df : DataFrame) : DataFrame :=
  map (remove_field name) df.

(** A transformer that adds the column [outputCol]; Spark refuses an
    output column that exists already. *)
Definition add_column (outputCol : string) (f : Row -> option value)
    (df : DataFrame) : option DataFrame :=
  mapM (fun r =>
          match field outputCol r with
          | Some _ => None
          | None => v ← f r; Some (r ++ [(outputCol, v)])%list
          end) df.

(** What [VectorAssembler] takes from one input column.  The assembler is
    built with [handleInvalid] at its default, [error]: a NaN among the
    numbers to assemble is refused (the entries of a vector column are
    taken as they are). *)
Definition assemble_value (v : value) : option (list float) :=
  match v with
  | VInt z => Some [of_Z z]
  | VDouble S754_nan => None
  | VDouble x => Some [x]
  | VBool b => Some [of_Z (if b then 1 else 0)]
  | VVector xs => Some xs
  | VString _ | VArray _ => None
  end.

Definition assemble (inputCols : list string) (r : Row) : option value :=
  parts ← mapM (fun c => v ← field c r; assemble_value v) inputCols;
  Some (VVector (concat parts)).

Definition VectorAssembler_transform (inputCols : list string)
    (outputCol : string) : DataFrame -> option DataFrame :=
  add_column outputCol (assemble inputCols).

Inductive DataType := IntegerType | DoubleType | BooleanType | StringType.

(** [StructType] of non-nullable [StructField]s *)
Definition StructType := list (string * DataType).

(** The schema verifier for one cell: an integer field takes a Python
    [int] of 32 bits (no [bool], no [float]), a double field a [float], a
    boolean field a [bool], and a string field takes any object. *)
Definition has_type (v : value) (t : DataType) : bool :=
  match t, v with
  | IntegerType, VInt z => (-2147483648 <=? z)%Z && (z <=? 2147483647)%Z
  | DoubleType, VDouble _ => true
  | BooleanType, VBool _ => true
  | StringType, _ => true
  | _, _ => false
  end.

(** [df.first()[name]] *)
Definition first_field (name : string) (df : DataFrame) : option value :=
  r ← head df; field name r.

(** [LogisticRegression(regParam = ...)] *)
Record LogisticRegression := { regParam : float }.

End Spark.

Import Spark.

(** The estimators and transformers of Spark ML and the pandas reader the
    notebook calls; what they compute is outside the notebook. *)
Class SparkML := {
  (** [pd.read_csv(path, sep="\t", header=None)] on the file's text: the
      rows of cells, or a parse error *)
  read_csv : string -> option (list (list value));
  (** [obj.toString] in the JVM, by which Spark turns a cell that is no
      string into the text of a string field *)
  toString : value -> string;
  (** [Tokenizer] *)
  tokenize : string -> list string;
  (** [HashingTF(numFeatures)] on a token list *)
  hashing_tf : Z -> list string -> list Float64.float;
  (** [df.randomSplit([w1, w2, w3], seed)] *)
  randomSplit :
    Float64.float * Float64.float * Float64.float -> Z -> DataFrame ->
    DataFrame * DataFrame * DataFrame;
  LogisticRegressionModel : Type;
  lr_fit : LogisticRegression -> DataFrame -> LogisticRegressionModel;
  lr_transform : LogisticRegressionModel -> DataFrame -> DataFrame;
  (** [BinaryClassificationEvaluator(metricName="areaUnderROC").evaluate] *)
  areaUnderROC : DataFrame -> Float64.float;
  (** the area under a ROC curve is a number *)
  areaUnderROC_number : forall df, areaUnderROC df <> Float64.nan
}.

(** The cell as a field of type [t] holds it: a string field holds the text
    of whatever object it was given. *)
Definition to_internal `{SparkML} (v : value) (t : DataType) : value :=
  match t, v with
  | StringType, VString _ => v
  | StringType, _ => VString (toString v)
  | _, _ => v
  end.

Fixpoint typed_row `{SparkML} (cells : list value) (schema : StructType)
  : option Row :=
  match cells, schema with
  | [], [] => Some []
  | v :: cells', (n, t) :: schema' =>
      if has_type v t
      then r ← typed_row cells' schema'; Some ((n, to_internal v t) :: r)
      else None
  | _, _ => None
  end.

(** [spark.createDataFrame(rows, schema)]: every row is verified against
    the schema, cell by cell, and must have as many cells as the schema has
    fields. *)
Definition createDataFrame `{SparkML} (rows : list (list value))
    (schema : StructType) : option DataFrame :=
  mapM (fun cells => typed_row cells schema) rows.

(** The estimators of the mmlspark library that cell 4b calls.  Their code
    is not part of the notebook; they are parameters of the development. *)
Class MMLSpark := {
  TrainedClassifierModel : Type;
  (** [TrainClassifier(model, labelCol, numFeatures).fit] *)
  TrainClassifier_fit :
    LogisticRegression -> string -> Z -> DataFrame -> TrainedClassifierModel;
  BestModel : Type;
  (** [FindBestModel(evaluationMetric, models).fit] *)
  FindBestModel_fit :
    string -> list TrainedClassifierModel -> DataFrame -> BestModel;
  BestModel_transform : BestModel -> DataFrame -> DataFrame;
  (** [ComputeModelStatistics().transform] *)
  ComputeModelStatistics_transform : DataFrame -> DataFrame
}.

(** ** Python lists of floats *)

(** [max(xs)]: the first of the greatest items, found with [>]; [[]] has no
    maximum. *)
Definition py_max (xs : list Float64.float) : option Float64.float :=
  match xs with
  | [] => None
  | x :: rest =>
      Some (fold_left (fun best item => if Float64.gt item best then item else best)
                      rest x)
  end.

(** [xs.index(v)]: the position of the first item equal to [v] (for
    numbers, an item that is [v] itself is equal to it). *)
Fixpoint py_index (xs : list Float64.float) (v : Float64.float) : option nat :=
  match xs with
  | [] => None
  | x :: rest => if Float64.eqb x v then Some 0%nat else S <$> py_index rest v
  end.

(** ** The notebook *)

Section Notebook.

Context `{SparkML} `{MMLSpark}.

(** *** Effects *)

Inductive node :=
| File (text : string)
| Dir
| SavedModel (m : LogisticRegressionModel)     (* a saved Spark ML model *)
| SavedBestModel (m : BestModel).              (* a saved mmlspark model *)

Inductive printed :=
| PValue (v : value)                           (* print(v) *)
| PTable (rows : DataFrame).                   (* df.show(n) *)

Record World := {
  fs : gmap string node;         (* the local files, by path *)
  remote : gmap string string;   (* what the network serves, by URL *)
  broken : gmap string string;   (* what arrives of a transfer that breaks *)
  requests : list string;        (* the URLs fetched so far *)
  stdout : list printed          (* what was printed so far *)
}.

Inductive result (A : Type) :=
| Ok (a : A)
| Raise (exn : string).
Global Arguments Ok {A} a.
Global Arguments Raise {A} exn.

Definition Cell (A : Type) : Type := World -> result A * World.

Global Instance Cell_ret : MRet Cell := fun A a w => (Ok a, w).
Global Instance Cell_bind : MBind Cell := fun A B f m w =>
  match m w with
  | (Ok a, w') => f a w'
  | (Raise e, w') => (Raise e, w')
  end.

(** A pure step that fails raises [exn]. *)
Definition lift {A} (exn : string) (o : option A) : Cell A := fun w =>
  match o with
  | Some a => (Ok a, w)
  | None => (Raise exn, w)
  end.

(** [os.path.isfile(path)] *)
Definition isfile (path : string) : Cell bool := fun w =>
  (Ok match fs w !! path with Some (File _) => true | _ => false end, w).

(** What a request for [url] delivers, and whether the transfer goes
    through: the whole of what [remote] serves, or the part, given in
    [broken], after which the transfer breaks off, or nothing, when the URL
    cannot be opened. *)
Definition transfer (url : string) (w : World) : option (string * bool) :=
  match remote w !! url with
  | Some body => Some (body, true)
  | None => (fun part => (part, false)) <$> broken w !! url
  end.

(** [urllib.request.urlretrieve(url, path)]: the URL is opened, then the
    file at [path] is opened for writing, and what arrives is written to
    it.  When the transfer breaks off, the part that has arrived stays in
    the file and the call raises. *)
Definition urlretrieve (url path : string) : Cell unit := fun w =>
  let w' := {| fs := fs w; remote := remote w; broken := broken w;
               requests := (requests w ++ [url])%list; stdout := stdout w |} in
  match transfer url w with
  | None => (Raise "URLError", w')
  | Some (text, complete) =>
      match fs w !! path with
      | None | Some (File _) =>
          let w'' := {| fs := <[path := File text]> (fs w); remote := remote w;
                        broken := broken w; requests := requests w';
                        stdout := stdout w |} in
          if complete then (Ok tt, w'')
          else (Raise "ContentTooShortError", w'')
      | Some _ => (Raise "IsADirectoryError", w')
      end
  end.

(** [pd.read_csv(path, sep="\t", header=None)] *)
Definition pd_read_csv (path : string) : Cell (list (list value)) := fun w =>
  match fs w !! path with
  | Some (File text) =>
      match read_csv text with
      | Some rows => (Ok rows, w)
      | None => (Raise "ParserError", w)
      end
  | Some _ => (Raise "IsADirectoryError", w)
  | None => (Raise "FileNotFoundError", w)
  end.

Definition emit (p : printed) : Cell unit := fun w =>
  (Ok tt, {| fs := fs w; remote := remote w; broken := broken w; requests := requests w;
             stdout := (stdout w ++ [p])%list |}).

(** [print(v)] *)
Definition print (v : value) : Cell unit := emit (PValue v).

(** [df.show(n)] *)
Definition show (n : nat) (df : DataFrame) : Cell unit := emit (PTable (take n df)).

(** [m.write().overwrite().save(path)] *)
Definition save_overwrite (path : string) (artifact : node) : Cell unit := fun w =>
  (Ok tt, {| fs := <[path := artifact]> (fs w); remote := remote w; broken := broken w;
             requests := requests w; stdout := stdout w |}).

(** *** Cell 2: read the data *)

Definition dataFile : string := "BookReviewsFromAmazon10K.tsv".

Definition textSchema : StructType :=
  [("rating", IntegerType); ("text", StringType)].

Definition cell_read : Cell DataFrame :=
  present ← isfile dataFile;
  _ ← (if negb present
       then urlretrieve ("https://mmlspark.azureedge.net/datasets/" +:+ dataFile) dataFile
       else mret tt);
  pdf ← pd_read_csv dataFile;
  raw_data ← lift "TypeError" (createDataFrame pdf textSchema);
  _ ← show 5 raw_data;
  mret raw_data.

(** *** Cells 3 and 4: the derived columns *)

Definition word_length_udf : Column -> Column :=
  Udf (fun s => VDouble (word_length s)).
Definition word_count_udf : Column -> Column :=
  Udf (fun s => VInt (word_count s)).

Definition data (raw_data : DataFrame) : option DataFrame :=
  selected ← select [Col "rating"; Col "text";
                     Alias (word_count_udf (Col "text")) "wordCount";
                     Alias (word_length_udf (Col "text")) "wordLength"] raw_data;
  labelled ← withColumn "label" (GtLit (Col "rating") 3) selected;
  Some (drop "rating" labelled).

(** *** Cell 6: featurize and assemble *)

Definition numFeatures : Z := 10000.

Definition Tokenizer_transform (inputCol outputCol : string)
  : DataFrame -> option DataFrame :=
  add_column outputCol (fun r =>
    match field inputCol r with
    | Some (VString s) => Some (VArray (tokenize s))
    | _ => None
    end).

Definition HashingTF_transform (inputCol outputCol : string) (n : Z)
  : DataFrame -> option DataFrame :=
  add_column outputCol (fun r =>
    match field inputCol r with
    | Some (VArray ws) => Some (VVector (hashing_tf n ws))
    | _ => None
    end).

Definition feature_columns_array : list string :=
  ["TextFeatures"; "wordCount"; "wordLength"].

Definition assembledData (data : DataFrame) : option DataFrame :=
  tokenizedData ← Tokenizer_transform "text" "tokenizedText" data;
  featurizedData ← HashingTF_transform "tokenizedText" "TextFeatures"
                     numFeatures tokenizedData;
  VectorAssembler_transform feature_columns_array "features" featurizedData.

Definition processedData (assembledData : DataFrame) : option DataFrame :=
  selected ← select [Col "label"; Col "features"] assembledData;
  withColumn "label" (CastInt (Col "label")) selected.

(** *** Cell 7 (4a): classify using pyspark *)

Definition split_weights : Float64.float * Float64.float * Float64.float :=
  (Float64.literal 60 100, Float64.literal 20 100, Float64.literal 20 100).

Definition lrHyperParams : list Float64.float :=
  [Float64.literal 5 100; Float64.literal 1 10;
   Float64.literal 2 10; Float64.literal 4 10].

Definition logisticRegressions : list LogisticRegression :=
  map (fun hyperParam => {| regParam := hyperParam |}) lrHyperParams.

(** One turn of the loop over the learners: *)
Definition train_and_score (train test : DataFrame)
    (acc : list LogisticRegressionModel * list Float64.float)
    (learner : LogisticRegression) :=
  let '(models, metrics) := acc in
  let model := lr_fit learner train in
  let models := (models ++ [model])%list in
  let scored_data := lr_transform model test in
  (models, (metrics ++ [areaUnderROC scored_data])%list).

(** The names the cell leaves bound. *)
Record pyspark_vars := {
  train : DataFrame;
  test : DataFrame;
  validation : DataFrame;
  models : list LogisticRegressionModel;
  metrics : list Float64.float;
  best_metric : Float64.float;
  best_model : LogisticRegressionModel
}.

Definition cell_pyspark (processedData : DataFrame) : Cell pyspark_vars :=
  let '(train, test, validation) := randomSplit split_weights 123 processedData in
  let '(models, metrics) :=
    fold_left (train_and_score train test) logisticRegressions ([], []) in
  best_metric ← lift "ValueError" (py_max metrics);
  i ← lift "ValueError" (py_index metrics best_metric);
  best_model ← lift "IndexError" (models !! i);
  _ ← save_overwrite "SparkMLExperiment.mmls" (SavedModel best_model);
  let scored_val := lr_transform best_model validation in
  _ ← print (VDouble (areaUnderROC scored_val));
  mret {| train := train; test := test; validation := validation;
          models := models; metrics := metrics;
          best_metric := best_metric; best_model := best_model |}.

(** *** Cell 8 (4b): classify using mmlspark *)

Record mmlspark_vars := {
  lrmodels : list TrainedClassifierModel;
  bestModel : BestModel;
  predictions : DataFrame;
  statistics : DataFrame             (* the cell's second [metrics] *)
}.

Definition cell_mmlspark (data : DataFrame) : Cell mmlspark_vars :=
  let '(train, test, validation) := randomSplit split_weights 123 data in
  let lrmodels :=
    map (fun lrm => TrainClassifier_fit lrm "label" 10000 train)
        logisticRegressions in
  let bestModel := FindBestModel_fit "AUC" lrmodels test in
  _ ← save_overwrite "MMLSExperiment.mmls" (SavedBestModel bestModel);
  let predictions := BestModel_transform bestModel validation in
  let metrics := ComputeModelStatistics_transform predictions in
  auc ← lift "KeyError" (first_field "AUC" metrics);
  _ ← print auc;
  mret {| lrmodels := lrmodels; bestModel := bestModel;
          predictions := predictions; statistics := metrics |}.

(** *** The vocabulary of the properties *)

Definition dataUrl : string := "https://mmlspark.azureedge.net/datasets/" +:+ dataFile.

(** The frame that a file's text holds. *)
Definition parsed (text : string) : option DataFrame :=
  pdf ← read_csv text; createDataFrame pdf textSchema.

(** The cell ends as the pure computation [o] does. *)
Definition ends_as {A} (r : result A) (o : option A) : Prop :=
  match o with
  | Some a => r = Ok a
  | None => exists exn, r = Raise exn
  end.

(** The models of the sweep, in the order of [lrHyperParams]. *)
Definition trained (train : DataFrame) : list LogisticRegressionModel :=
  map (fun learner => lr_fit learner train) logisticRegressions.

(** The area under the ROC curve of model [m] on the frame [d]. *)
Definition auc_on (d : DataFrame) (m : LogisticRegressionModel) : Float64.float :=
  areaUnderROC (lr_transform m d).

(** The model and the statistics of cell 8. *)
Definition mml_best (data : DataFrame) : BestModel :=
  let '(train, test, _) := randomSplit split_weights 123 data in
  FindBestModel_fit "AUC"
    (map (fun lrm => TrainClassifier_fit lrm "label" 10000 train) logisticRegressions)
    test.

Definition mml_statistics (data : DataFrame) : DataFrame :=
  let '(_, _, validation) := randomSplit split_weights 123 data in
  ComputeModelStatistics_transform (BestModel_transform (mml_best data) validation).

End Notebook.

(** ** The notebook as a whole *)

Section Run.

Context `{SparkML} `{MMLSpark}.

(** *** Cell 5 *)

Definition cell_show (data : DataFrame) : Cell unit := show 5 data.

(** *** The code cells, one after the other *)

Definition notebook : Cell unit :=
  raw_data ← cell_read;
  d ← lift "AnalysisException" (data raw_data);
  _ ← cell_show d;
  a ← lift "SparkException" (assembledData d);
  p ← lift "AnalysisException" (processedData a);
  _ ← cell_pyspark p;
  _ ← cell_mmlspark d;
  mret tt.

(** The world with one more output. *)
Definition printing (w : World) (p : list printed) : World :=
  {| fs := fs w; remote := remote w; broken := broken w; requests := requests w;
     stdout := (stdout w ++ p)%list |}.

(** The world after the request for the data file. *)
Definition requested (w : World) : World :=
  {| fs := fs w; remote := remote w; broken := broken w;
     requests := (requests w ++ [dataUrl])%list; stdout := stdout w |}.

(** The world after the download of [body]. *)
Definition downloaded (w : World) (body : string) : World :=
  {| fs := <[dataFile := File body]> (fs w); remote := remote w; broken := broken w;
     requests := (requests w ++ [dataUrl])%list; stdout := stdout w |}.

End Run.

(** ** The words of a text, as the specification counts them *)

(** Position [i] of [s] starts a word: it holds a character that is not
    whitespace, and it is the first position or follows whitespace.  The
    words of [s] are its maximal runs of such characters, one per start. *)
Definition starts_word (s : string) (i : nat) : bool :=
  match String.get i s with
  | Some c =>
      negb (PyStr.isspace c)
      && match i with
         | O => true
         | S j => from_option PyStr.isspace true (String.get j s)
         end
  | None => false
  end.

Definition count_words (s : string) : nat :=
  length (List.filter (starts_word s) (seq 0 (String.length s))).

(** No character of [s] is one of a word. *)
Fixpoint blank (s : string) : bool :=
  match s with
  | EmptyString => true
  | String c s' => PyStr.isspace c && blank s'
  end.

(** The number of characters of [s] that are not whitespace. *)
Fixpoint non_blank_chars (s : string) : nat :=
  match s with
  | EmptyString => 0
  | String c s' => (if PyStr.isspace c then 0 else 1) + non_blank_chars s'
  end.

Definition nonempty (w : string) : bool :=
  match w with EmptyString => false | _ => true end.

(** The words still to come when the scan is inside a word ([inw]) or not. *)
Fixpoint runs (inw : bool) (s : string) : nat :=
  match s with
  | EmptyString => 0
  | String c s' =>
      if PyStr.isspace c then runs false s'
      else (if inw then 0 else 1) + runs true s'
  end.

(** [starts_word], for a text that continues one whose last character was
    in a word ([inw]) or was not. *)
Definition starts_after (inw : bool) (s : string) (i : nat) : bool :=
  match String.get i s with
  | Some c =>
      negb (PyStr.isspace c)
      && match i with
         | O => negb inw
         | S j => from_option PyStr.isspace true (String.get j s)
         end
  | None => false
  end.

(** The rows of the raw frame and of the derived frame for a review. *)
Definition review_row (r : Z * string) : Row :=
  [("rating", VInt r.1); ("text", VString r.2)].

Definition derived_row (r : Z * string) : Row :=
  [("text", VString r.2); ("wordCount", VInt (word_count r.2));
   ("wordLength", VDouble (word_length r.2)); ("label", VBool (3 <? r.1)%Z)].

(** The row of the processed frame for a review. *)
Definition processed_row `{SparkML} (r : Z * string) : Row :=
  [("label", VInt (if (3 <? r.1)%Z then 1 else 0));
   ("features",
    VVector (hashing_tf numFeatures (tokenize r.2)
             ++ [Float64.of_Z (word_count r.2); word_length r.2]))].

(** The review text of a raw row has a word (and fewer than 2^45
    characters, as every string of a Spark row has), or has none. *)
Definition has_words (raw : Row) : Prop :=
  exists text, field "text" raw = Some (VString text)
    /\ blank text = false /\ (Z.of_nat (String.length text) < 2 ^ 45)%Z.

Definition has_no_word (raw : Row) : Prop :=
  exists text, field "text" raw = Some (VString text) /\ blank text = true.

(** The value in [column] of the derived row of a review. *)
Definition derived (rating : Z) (text column : string) : option value :=
  d ← data [review_row (rating, text)]; first_field column d.

(** [k / 100] is a number of two decimals nearest to [p / q]. *)
Definition nearest_hundredths (k p q : Z) : Prop :=
  (2 * Z.abs (100 * p - k * q) <= q)%Z.

(** ** A small instance of the libraries, to run the notebook on *)

Module Toy.

Definition one : Float64.float := Float64.of_Z 1.

(** The score of a scored frame: the number in its first cell. *)
Definition score (df : DataFrame) : Float64.float :=
  match df with
  | ((_, VDouble x) :: _) :: _ => if Float64.eqb x x then x else one
  | _ => one
  end.

Lemma score_number df : score df <> Float64.nan.
Proof.
  unfold score.
  repeat (case_match; try discriminate); subst; intros ->; discriminate.
Qed.

(** A [toString] for the cells of the examples: an integer in decimal and a
    boolean; the text given to other cells is of no account here. *)
Definition jvm_string (v : value) : string :=
  match v with
  | VInt z => pretty z
  | VBool b => if b then "true" else "false"
  | VString s => s
  | _ => "NaN"
  end.

(** A reader of one line: a digit, a TAB, and the text. *)
Definition read_line (text : string) : option (list (list value)) :=
  match text with
  | String d (String "009" rest) =>
      let n := N_of_ascii d in
      if ((48 <=? n) && (n <=? 57))%N
      then Some [[VInt (Z.of_N n - 48); VString rest]]
      else None
  | _ => None
  end.

Local Instance spark : SparkML := {|
  read_csv := read_line;
  toString := jvm_string;
  tokenize := PyStr.split;
  hashing_tf n ws := [Float64.of_Z (Z.of_nat (length ws))];
  randomSplit _ _ df := (df, df, df);
  LogisticRegressionModel := Float64.float;
  lr_fit learner _ := regParam learner;
  lr_transform m df := [("rawPrediction", VDouble m)] :: df;
  areaUnderROC := score;
  areaUnderROC_number := score_number
|}.

(** The same library with an evaluator that scores every model alike. *)
Lemma one_number (df : DataFrame) : one <> Float64.nan.
Proof. discriminate. Qed.

Local Instance flat : SparkML := {|
  read_csv := read_line;
  toString := jvm_string;
  tokenize := PyStr.split;
  hashing_tf n ws := [Float64.of_Z (Z.of_nat (length ws))];
  randomSplit _ _ df := (df, df, df);
  LogisticRegressionModel := Float64.float;
  lr_fit learner _ := regParam learner;
  lr_transform m df := [("rawPrediction", VDouble m)] :: df;
  areaUnderROC _ := one;
  areaUnderROC_number := one_number
|}.

Local Instance mmlspark : MMLSpark := {|
  TrainedClassifierModel := Float64.float;
  TrainClassifier_fit learner _ _ _ := regParam learner;
  BestModel := Float64.float;
  FindBestModel_fit _ ms _ := List.hd one ms;
  BestModel_transform m df := [("scores", VDouble m)] :: df;
  ComputeModelStatistics_transform df :=
    [[("evaluation_type", VString "Classification"); ("AUC", VDouble (score df))]]
|}.

(** A world with no local file, and one where the data file is there. *)
Definition url : string :=
  "https://mmlspark.azureedge.net/datasets/BookReviewsFromAmazon10K.tsv".

Definition fresh : @World spark mmlspark :=
  {| fs := ∅; remote := {[ url := "5	a good  book" ]}; broken := ∅;
     requests := []; stdout := [] |}.

Definition fresh_flat : @World flat mmlspark :=
  {| fs := ∅; remote := {[ url := "5	a good  book" ]}; broken := ∅;
     requests := []; stdout := [] |}.

Definition cached : @World spark mmlspark :=
  {| fs := {[ dataFile := File "3	bad" ]}; remote := ∅; broken := ∅;
     requests := []; stdout := [] |}.

Definition reviews : list (list value) :=
  [[VInt 5; VString "a good  book"]; [VInt 3; VString "bad"]; [VInt 4; VString "  "]].

End Toy.

(** ** More worlds and a library without the AUC entry *)

Module Cases.

(** No local file, and nothing served. *)
Definition offline : @World Toy.spark Toy.mmlspark :=
  {| fs := ∅; remote := ∅; broken := ∅; requests := []; stdout := [] |}.

(** A local file that is no table. *)
Definition garbled : @World Toy.spark Toy.mmlspark :=
  {| fs := {[ dataFile := File "no table" ]}; remote := ∅; broken := ∅;
     requests := []; stdout := [] |}.

(** No local file, and a transfer that breaks off in the first line. *)
Definition cut : @World Toy.spark Toy.mmlspark :=
  {| fs := ∅; remote := ∅; broken := {[ Toy.url := "5	a go" ]};
     requests := []; stdout := [] |}.

(** Two reviews, each with a word. *)
Definition worded : list (list value) :=
  [[VInt 5; VString "a good  book"]; [VInt 3; VString "bad"]].

(** Statistics that hold the accuracy only. *)
Local Instance accuracy_only : MMLSpark := {|
  TrainedClassifierModel := Float64.float;
  TrainClassifier_fit learner _ _ _ := regParam learner;
  BestModel := Float64.float;
  FindBestModel_fit _ ms _ := List.hd Toy.one ms;
  BestModel_transform m df := [("scores", VDouble m)] :: df;
  ComputeModelStatistics_transform df := [[("accuracy", VDouble Toy.one)]]
|}.

Definition empty_world : @World Toy.spark accuracy_only :=
  {| fs := ∅; remote := ∅; broken := ∅; requests := []; stdout := [] |}.

End Cases.

(** * Properties *)

(** ** Words *)

Section Words.

Import PyStr.

Lemma nonempty_snoc w c : nonempty (w +:+ String c EmptyString) = true.
Proof. destruct w; reflexivity. Qed.

Lemma split_from_length s : forall cur,
  length (split_from cur s) = ((if nonempty cur then 1 else 0) + runs (nonempty cur) s)%nat.
Proof.
  induction s as [|c s IH]; intros cur; simpl.
  - destruct cur; reflexivity.
  - destruct (isspace c).
    + destruct cur; simpl; rewrite IH; reflexivity.
    + rewrite IH, nonempty_snoc. destruct (nonempty cur); reflexivity.
Qed.

Lemma starts_after_S inw c s i :
  starts_after inw (String c s) (S i) = starts_after (negb (isspace c)) s i.
Proof.
  unfold starts_after; simpl.
  destruct (String.get i s) as [d|]; [|reflexivity].
  destruct i as [|j]; simpl; [|reflexivity].
  rewrite negb_involutive. reflexivity.
Qed.

Lemma filter_starts_shift inw c s (l : list nat) :
  List.filter (starts_after inw (String c s)) (map S l)
  = map S (List.filter (starts_after (negb (isspace c)) s) l).
Proof.
  induction l as [|i l IHl]; [reflexivity|].
  cbn [map List.filter]. rewrite starts_after_S, IHl.
  destruct (starts_after _ s i); reflexivity.
Qed.

Lemma runs_count s : forall inw,
  runs inw s
  = length (List.filter (starts_after inw s) (seq 0 (String.length s))).
Proof.
  induction s as [|c s IH]; intros inw; [reflexivity|].
  cbn [String.length runs]. rewrite <- cons_seq, <- seq_shift.
  cbn [List.filter]. rewrite filter_starts_shift.
  unfold starts_after at 1; cbn [String.get].
  destruct (isspace c); cbn [negb andb].
  - rewrite length_map, <- IH. reflexivity.
  - destruct inw; cbn [negb length]; rewrite length_map, <- IH; reflexivity.
Qed.

Lemma starts_after_false s i : starts_after false s i = starts_word s i.
Proof.
  unfold starts_after, starts_word.
  destruct (String.get i s); [|reflexivity]. destruct i; reflexivity.
Qed.

Lemma word_count_runs s : word_count s = Z.of_nat (runs false s).
Proof. unfold word_count, split. rewrite split_from_length. reflexivity. Qed.

(** C7: the derived [wordCount] of a text is the length of its default
    [split], and that is the number of its maximal runs of characters that
    are not whitespace, one for each position that starts a word. *)
Theorem word_count_counts_words (s : string) :
  word_count s = Z.of_nat (length (split s))
  /\ word_count s = Z.of_nat (count_words s)
  /\ forall rating,
       derived rating s "wordCount" = Some (VInt (Z.of_nat (count_words s))).
Proof.
  assert (Hcount : word_count s = Z.of_nat (count_words s)).
  { rewrite word_count_runs, runs_count. unfold count_words.
    rewrite (filter_ext _ _ (starts_after_false s)). reflexivity. }
  split; [reflexivity|]. split; [exact Hcount|].
  intros rating. rewrite <- Hcount. reflexivity.
Qed.

Lemma length_snoc w c :
  String.length (w +:+ String c EmptyString) = S (String.length w).
Proof. induction w as [|d w IH]; simpl; [reflexivity|]. rewrite IH. reflexivity. Qed.

(** Every word has a character, and the words fit in the text. *)
Lemma split_from_words s : forall cur,
  Forall (fun w => (1 <= len w)%Z) (split_from cur s)
  /\ (fold_right Z.add 0 (map len (split_from cur s))
      <= Z.of_nat (String.length cur) + Z.of_nat (String.length s))%Z.
Proof.
  unfold len.
  induction s as [|c s IH]; intros cur; cbn [split_from String.length].
  - destruct cur as [|d cur]; cbn [map fold_right String.length]; split.
    + constructor.
    + lia.
    + constructor; [cbn [String.length]; lia|constructor].
    + lia.
  - destruct (isspace c).
    + destruct (IH EmptyString) as [Hw Hs]. cbn [String.length] in Hs.
      destruct cur as [|d cur]; [split; [exact Hw|lia]|].
      cbn [map fold_right]. split; [constructor; [cbn [String.length]; lia|exact Hw]|lia].
    + destruct (IH (cur +:+ String c EmptyString)) as [Hw Hs].
      rewrite length_snoc in Hs. split; [exact Hw|lia].
Qed.

Lemma blank_split_from s : blank s = true -> split_from EmptyString s = [].
Proof.
  induction s as [|c s IH]; [reflexivity|]. cbn [blank split_from].
  destruct (isspace c); [exact IH|discriminate].
Qed.

Lemma split_from_nil s : forall cur, split_from cur s = [] -> cur = EmptyString /\ blank s = true.
Proof.
  induction s as [|c s IH]; intros cur; cbn [blank split_from].
  - destruct cur; [auto|discriminate].
  - destruct (isspace c).
    + destruct cur; [|discriminate]. intros Hs. destruct (IH _ Hs). auto.
    + intros Hs. destruct (IH _ Hs) as [Hc _]. destruct cur; discriminate.
Qed.

Lemma split_nil_iff s : split s = [] <-> blank s = true.
Proof.
  split; [intros Hs; apply (split_from_nil _ _ Hs)|apply blank_split_from].
Qed.

End Words.

(** C10: a text with no word, empty or all whitespace, has the word count 0,
    and its mean word length is the mean of the empty list: the derived
    [wordLength] of such a row is NaN, not a number. *)
Theorem blank_text_has_no_mean (s : string) :
  blank s = true ->
  PyStr.split s = [] /\ word_count s = 0%Z /\ word_length s = Float64.nan
  /\ forall rating,
       derived rating s "wordCount" = Some (VInt 0)
       /\ derived rating s "wordLength" = Some (VDouble Float64.nan).
Proof.
  intros Hs. apply split_nil_iff in Hs.
  assert (Hc : word_count s = 0%Z) by (unfold word_count; rewrite Hs; reflexivity).
  assert (Hl : word_length s = Float64.nan)
    by (unfold word_length; rewrite Hs; reflexivity).
  repeat split; try assumption; rewrite <- ?Hc, <- ?Hl; reflexivity.
Qed.

Lemma blank_text_has_no_mean_witness :
  PyStr.split "  " = [] /\ word_count "  " = 0%Z /\ word_length "  " = Float64.nan
  /\ forall rating,
       derived rating "  " "wordCount" = Some (VInt 0)
       /\ derived rating "  " "wordLength" = Some (VDouble Float64.nan).
Proof. apply (blank_text_has_no_mean "  "). reflexivity. Defined.

(** ** The derived data frame *)

Section Frames.

Context `{SparkML}.

Lemma mapM_map_Some {A B C} (f : A -> option B) (g : C -> A) (h : C -> B) l :
  (forall x, f (g x) = Some (h x)) -> mapM f (map g l) = Some (map h l).
Proof.
  intros Hf. induction l as [|x l IH]; [reflexivity|].
  cbn [map mapM]. rewrite Hf. cbn [mbind option_bind]. fold (mapM f (map g l)). rewrite IH. reflexivity.
Qed.

Lemma typed_row_textSchema cells r :
  typed_row cells textSchema = Some r -> exists rt, r = review_row rt.
Proof.
  unfold textSchema.
  destruct cells as [|[z| | | | |] [|v [|]]]; try discriminate;
    cbn [typed_row has_type]; destruct (_ && _); try discriminate;
    cbn [mbind option_bind]; try discriminate.
  intros [= <-]. destruct v; eexists (z, _); reflexivity.
Qed.

Lemma createDataFrame_reviews cells raw_data :
  createDataFrame cells textSchema = Some raw_data ->
  exists rs, raw_data = map review_row rs.
Proof.
  unfold createDataFrame. intros Hm. apply mapM_Some_1 in Hm.
  induction Hm as [|c r cs rs' Hr _ [rs ->]]; [exists []; reflexivity|].
  apply typed_row_textSchema in Hr as [rt ->]. exists (rt :: rs). reflexivity.
Qed.

Lemma data_reviews rs : data (map review_row rs) = Some (map derived_row rs).
Proof.
  unfold data, select.
  rewrite (mapM_map_Some _ review_row
             (fun r => [("rating", VInt r.1); ("text", VString r.2);
                        ("wordCount", VInt (word_count r.2));
                        ("wordLength", VDouble (word_length r.2))]))
    by reflexivity.
  cbn [mbind option_bind]. unfold withColumn.
  rewrite (mapM_map_Some _ _
             (fun r => [("rating", VInt r.1); ("text", VString r.2);
                        ("wordCount", VInt (word_count r.2));
                        ("wordLength", VDouble (word_length r.2));
                        ("label", VBool (3 <? r.1)%Z)]))
    by reflexivity.
  cbn [mbind option_bind]. unfold drop. rewrite map_map. reflexivity.
Qed.

Lemma mapM_map_Forall {A B C} (f : A -> option B) (g : C -> A) (h : C -> B)
    (P : C -> Prop) l :
  (forall x, P x -> f (g x) = Some (h x)) ->
  Forall P l -> mapM f (map g l) = Some (map h l).
Proof.
  intros Hf. induction 1 as [|x l Hx _ IH]; [reflexivity|].
  cbn [map mapM]. rewrite (Hf x Hx). cbn [mbind option_bind].
  fold (mapM f (map g l)). rewrite IH. reflexivity.
Qed.

Lemma mapM_map_None {A B C} (f : A -> option B) (g : C -> A) l :
  Exists (fun x => f (g x) = None) l -> mapM f (map g l) = None.
Proof.
  induction 1 as [x l Hx|x l _ IH]; cbn [map mapM].
  - rewrite Hx. reflexivity.
  - fold (mapM f (map g l)). rewrite IH. destruct (f (g x)); reflexivity.
Qed.

(** The text of every review has a mean word length, or that of one has
    none. *)
Lemma numbers_or_nan (rs : list (Z * string)) :
  Forall (fun r => Float64.number (word_length r.2)) rs
  \/ Exists (fun r => word_length r.2 = Float64.nan) rs.
Proof.
  induction rs as [|r rs [IH|IH]]; [left; constructor|..].
  - destruct (word_length r.2) eqn:Hr;
      try (left; constructor; [rewrite Hr; discriminate|exact IH]).
    right. left. exact Hr.
  - right. right. exact IH.
Qed.

(** The frame after the tokenizer and the hashing of cell 6. *)
Lemma featurizedData_derived rs :
  (Tokenizer_transform "text" "tokenizedText" (map derived_row rs)
   ≫= HashingTF_transform "tokenizedText" "TextFeatures" numFeatures)
  = Some (map (fun r =>
                 derived_row r ++
                 [("tokenizedText", VArray (tokenize r.2));
                  ("TextFeatures", VVector (hashing_tf numFeatures (tokenize r.2)))])%list
              rs).
Proof.
  unfold Tokenizer_transform, HashingTF_transform, add_column.
  rewrite (mapM_map_Some _ _
             (fun r => derived_row r ++ [("tokenizedText", VArray (tokenize r.2))])%list)
    by reflexivity.
  cbn [mbind option_bind].
  apply mapM_map_Some. intros r. reflexivity.
Qed.

Lemma assembledData_derived rs :
  Forall (fun r => Float64.number (word_length r.2)) rs ->
  assembledData (map derived_row rs)
  = Some (map (fun r =>
                 derived_row r ++
                 [("tokenizedText", VArray (tokenize r.2));
                  ("TextFeatures", VVector (hashing_tf numFeatures (tokenize r.2)));
                  ("features",
                   VVector (hashing_tf numFeatures (tokenize r.2)
                            ++ [Float64.of_Z (word_count r.2); word_length r.2]))])%list
              rs).
Proof.
  intros Hnum. unfold assembledData.
  pose proof (featurizedData_derived rs) as Hf.
  destruct (Tokenizer_transform _ _ _) as [tokenizedData|]; [|discriminate].
  cbn [mbind option_bind] in Hf |- *. rewrite Hf.
  unfold VectorAssembler_transform, add_column.
  apply (mapM_map_Forall _ _ _ (fun r => Float64.number (word_length r.2)));
    [|exact Hnum].
  intros r Hr. cbn.
  destruct (word_length r.2); [reflexivity..|destruct (Hr eq_refl)|reflexivity].
Qed.

(** One review without a mean word length, and nothing is assembled. *)
Lemma assembledData_nan rs :
  Exists (fun r => word_length r.2 = Float64.nan) rs ->
  assembledData (map derived_row rs) = None.
Proof.
  intros Hnan. unfold assembledData.
  pose proof (featurizedData_derived rs) as Hf.
  destruct (Tokenizer_transform _ _ _) as [tokenizedData|]; [|discriminate].
  cbn [mbind option_bind] in Hf |- *. rewrite Hf.
  unfold VectorAssembler_transform, add_column.
  apply mapM_map_None. eapply Exists_impl; [exact Hnan|].
  intros r Hr. cbn. rewrite Hr. reflexivity.
Qed.

End Frames.

(** C1: in the derived frame, a row's label is true exactly when the rating
    of the raw row it comes from is greater than 3. *)
Theorem label_iff_rating_above_3 `{SparkML}
    (cells : list (list value)) (raw_data : DataFrame) :
  createDataFrame cells textSchema = Some raw_data ->
  exists d, data raw_data = Some d
    /\ Forall2 (fun raw row =>
                 exists rating b,
                   field "rating" raw = Some (VInt rating)
                   /\ field "label" row = Some (VBool b)
                   /\ (b = true <-> (rating > 3)%Z))
               raw_data d.
Proof.
  intros Hraw. apply createDataFrame_reviews in Hraw as [rs ->].
  exists (map derived_row rs). split; [apply data_reviews|].
  apply Forall2_fmap, Forall_Forall2_diag, Forall_forall.
  intros [rating text] _. exists rating, (3 <? rating)%Z.
  repeat split; try reflexivity; cbn [fst]; intros Hb; lia.
Qed.

Lemma label_iff_rating_above_3_witness :
  exists d, data (map review_row [(5, "a good  book"); (3, "bad"); (4, "  ")]%Z) = Some d
    /\ Forall2 (fun raw row =>
                 exists rating b,
                   field "rating" raw = Some (VInt rating)
                   /\ field "label" row = Some (VBool b)
                   /\ (b = true <-> (rating > 3)%Z))
               (map review_row [(5, "a good  book"); (3, "bad"); (4, "  ")]%Z) d.
Proof.
  apply (label_iff_rating_above_3 (H := Toy.spark) Toy.reviews). reflexivity.
Defined.

(** Row by row, [data] keeps the text, and holds the two derived features
    and the label. *)
Lemma derived_columns `{SparkML} (cells : list (list value)) (raw_data : DataFrame) :
  createDataFrame cells textSchema = Some raw_data ->
  exists d, data raw_data = Some d
    /\ Forall2 (fun raw row =>
                 exists rating text,
                   raw = review_row (rating, text)
                   /\ row = derived_row (rating, text))
               raw_data d.
Proof.
  intros Hraw. apply createDataFrame_reviews in Hraw as [rs ->].
  exists (map derived_row rs). split; [apply data_reviews|].
  apply Forall2_fmap, Forall_Forall2_diag, Forall_forall.
  intros [rating text] _. exists rating, text. split; reflexivity.
Qed.

(** ** Reading the data *)

Section Reading.

Context `{SparkML} `{MMLSpark}.

Ltac run_cell :=
  unfold cell_read, mbind, Cell_bind, mret, Cell_ret, isfile, urlretrieve,
    pd_read_csv, lift, show, emit, parsed, ends_as, dataUrl in *;
  cbn [fs remote requests stdout negb fst snd] in *.

(** The cell on a world that has the file. *)
Lemma cell_read_with_file w text :
  fs w !! dataFile = Some (File text) ->
  cell_read w
  = match parsed text with
    | Some df => (Ok df, printing w [PTable (take 5 df)])
    | None =>
        (Raise match read_csv text with
               | Some _ => "TypeError"
               | None => "ParserError"
               end, w)
    end.
Proof.
  intros Hfile. unfold printing. run_cell. rewrite Hfile. cbn [negb]. rewrite Hfile.
  destruct (read_csv text) as [pdf|]; cbn [mbind option_bind]; [|reflexivity].
  destruct (createDataFrame pdf textSchema); reflexivity.
Qed.

(** The cell on a world that has no such file. *)
Lemma cell_read_without_file w :
  (forall text, fs w !! dataFile <> Some (File text)) ->
  cell_read w
  = match transfer dataUrl w with
    | None => (Raise "URLError", requested w)
    | Some (text, complete) =>
        match fs w !! dataFile with
        | Some _ => (Raise "IsADirectoryError", requested w)
        | None =>
            if complete
            then match parsed text with
                 | Some df =>
                     (Ok df, printing (downloaded w text) [PTable (take 5 df)])
                 | None =>
                     (Raise match read_csv text with
                            | Some _ => "TypeError"
                            | None => "ParserError"
                            end, downloaded w text)
                 end
            else (Raise "ContentTooShortError", downloaded w text)
        end
    end.
Proof.
  intros Hno. unfold requested, downloaded, printing. run_cell.
  destruct (fs w !! dataFile) as [[text| | |]|] eqn:Hfile;
    try (exfalso; eapply Hno; reflexivity); cbn [negb];
    destruct (transfer _ w) as [[body [|]]|]; rewrite ?Hfile;
    cbn [fst snd fs requests]; try reflexivity.
  rewrite lookup_insert_eq.
  destruct (read_csv body) as [pdf|]; cbn [mbind option_bind]; [|reflexivity].
  destruct (createDataFrame pdf textSchema); reflexivity.
Qed.

Lemma file_or_not w :
  (exists text, fs w !! dataFile = Some (File text))
  \/ (forall text, fs w !! dataFile <> Some (File text)).
Proof.
  destruct (fs w !! dataFile) as [[text| | |]|]; eauto; right; intros ? [=].
Qed.

Lemma cell_read_present w text :
  fs w !! dataFile = Some (File text) ->
  requests (cell_read w).2 = requests w
  /\ fs (cell_read w).2 = fs w
  /\ ends_as (cell_read w).1 (parsed text).
Proof.
  intros Hfile. run_cell. rewrite Hfile. cbn [negb]. rewrite Hfile.
  destruct (read_csv text) as [pdf|]; cbn [mbind option_bind fst snd];
    [|repeat split; eauto].
  destruct (createDataFrame pdf textSchema); cbn [fst snd fs requests];
    repeat split; eauto.
Qed.

Lemma cell_read_absent w :
  (forall text, fs w !! dataFile <> Some (File text)) ->
  requests (cell_read w).2 = (requests w ++ [dataUrl])%list
  /\ forall body, fs w !! dataFile = None -> remote w !! dataUrl = Some body ->
       fs (cell_read w).2 = <[dataFile := File body]> (fs w)
       /\ ends_as (cell_read w).1 (parsed body).
Proof.
  intros Hno. rewrite (cell_read_without_file w Hno). split.
  - destruct (transfer dataUrl w) as [[text complete]|]; [|reflexivity].
    destruct (fs w !! dataFile); [reflexivity|].
    destruct complete; [|reflexivity]. destruct (parsed text); reflexivity.
  - intros body Hnone Hbody. unfold transfer. rewrite Hbody, Hnone.
    unfold ends_as. destruct (parsed body); cbn [fst snd downloaded printing fs];
      split; eauto.
Qed.

End Reading.

(** C5: the cell fetches the remote file exactly when there is no local file
    of the expected name.  When the file is there, nothing is fetched, the
    files stay as they are, and the frame is read from the text at hand;
    when it is not, the text that the network serves is stored under that
    name and read. *)
Theorem download_exactly_when_absent `{SparkML} `{MMLSpark} (w : World) :
  (requests (cell_read w).2 = (requests w ++ [dataUrl])%list
   <-> forall text, fs w !! dataFile <> Some (File text))
  /\ (forall text, fs w !! dataFile = Some (File text) ->
        requests (cell_read w).2 = requests w
        /\ fs (cell_read w).2 = fs w
        /\ ends_as (cell_read w).1 (parsed text))
  /\ (forall body, fs w !! dataFile = None -> remote w !! dataUrl = Some body ->
        fs (cell_read w).2 = <[dataFile := File body]> (fs w)
        /\ ends_as (cell_read w).1 (parsed body)).
Proof.
  split; [split|split].
  - intros Hreq text Hfile.
    destruct (cell_read_present w text Hfile) as [Hsame _].
    rewrite Hsame in Hreq. apply (f_equal length) in Hreq.
    rewrite length_app in Hreq. cbn [length] in Hreq. lia.
  - intros Hno. apply (cell_read_absent w Hno).
  - apply cell_read_present.
  - intros body Hnone Hbody.
    apply (cell_read_absent w); [intros text; rewrite Hnone; discriminate|..]; assumption.
Qed.

(** ** The order of floats *)

Module FloatOrder.

Import Float64.

Lemma compare_cases x y :
  x <> nan -> y <> nan ->
  (SFcompare x y = Some Lt /\ lt x y)
  \/ (SFcompare x y = Some Eq /\ same x y)
  \/ (SFcompare x y = Some Gt /\ lt y x).
Proof.
  unfold lt, same, nan. intros Hx Hy.
  destruct x as [sx|sx| |sx mx ex], y as [sy|sy| |sy my ey]; try congruence;
    try destruct sx; try destruct sy; cbn -[Z.compare Pos.compare_cont];
    try change (Pos.compare_cont Eq mx my) with (Pos.compare mx my);
    try destruct (Z.compare_spec ex ey); try destruct (Pos.compare_spec mx my);
    subst; cbn [CompOpp];
    first [ left; split; [reflexivity|lia]
          | right; left; split; [reflexivity|f_equal; f_equal; lia]
          | right; right; split; [reflexivity|lia] ].
Qed.

Lemma lt_irrefl x : ~ lt x x.
Proof. unfold lt, lex_lt. destruct (key x) as [[a b] c]. lia. Qed.

Lemma lt_trans x y z : lt x y -> lt y z -> lt x z.
Proof.
  unfold lt, lex_lt.
  destruct (key x) as [[a b] c], (key y) as [[a' b'] c'], (key z) as [[a'' b''] c''].
  lia.
Qed.

Lemma lt_asym x y : lt x y -> ~ lt y x.
Proof. intros Hxy Hyx. exact (lt_irrefl x (lt_trans _ _ _ Hxy Hyx)). Qed.

Lemma lt_same_r x y z : lt x y -> same y z -> lt x z.
Proof. unfold lt, same. intros Hxy <-. exact Hxy. Qed.

Lemma lt_same_l x y z : same x y -> lt y z -> lt x z.
Proof. unfold lt, same. intros ->. auto. Qed.

Lemma gt_iff x y : x <> nan -> y <> nan -> gt x y = true <-> lt y x.
Proof.
  intros Hx Hy. unfold gt, SFltb.
  destruct (compare_cases y x Hy Hx) as [[-> Hc]|[[-> Hc]|[-> Hc]]].
  - tauto.
  - split; [discriminate|]. intros Hlt. destruct (lt_irrefl x).
    apply (lt_same_l _ _ _ (eq_sym Hc)). exact Hlt.
  - split; [discriminate|]. intros Hlt. destruct (lt_asym _ _ Hlt Hc).
Qed.

Lemma eqb_iff x y : x <> nan -> y <> nan -> eqb x y = true <-> same x y.
Proof.
  intros Hx Hy. unfold eqb, SFeqb.
  destruct (compare_cases x y Hx Hy) as [[-> Hc]|[[-> Hc]|[-> Hc]]].
  - split; [discriminate|]. intros Hs. destruct (lt_irrefl y).
    apply (lt_same_l _ _ _ (eq_sym Hs)). exact Hc.
  - tauto.
  - split; [discriminate|]. intros Hs. destruct (lt_irrefl x).
    apply (lt_same_l _ _ _ Hs). exact Hc.
Qed.

Lemma total x y : x <> nan -> y <> nan -> lt x y \/ same x y \/ lt y x.
Proof. intros Hx Hy. destruct (compare_cases x y Hx Hy) as [[_ ?]|[[_ ?]|[_ ?]]]; auto. Qed.

End FloatOrder.

(** ** [max] and [index] on lists of numbers *)

Section PyLists.

Import Float64 FloatOrder.

Lemma fold_max_spec rest : forall best,
  number best -> Forall number rest ->
  let m := fold_left (fun best item => if gt item best then item else best) rest best in
  (m = best \/ m ∈ rest) /\ ~ lt m best /\ forall x, x ∈ rest -> ~ lt m x.
Proof.
  induction rest as [|item rest IH]; intros best Hb Hrest; cbn [fold_left].
  - split; [left; reflexivity|]. split; [apply lt_irrefl|]. intros x Hx. inversion Hx.
  - inversion Hrest as [|? ? Hitem Hrest']; subst.
    set (b' := if gt item best then item else best).
    assert (Hb' : number b') by (unfold b'; destruct (gt item best); assumption).
    destruct (IH b' Hb' Hrest') as (Hin & Hnb & Hall).
    set (m := fold_left _ rest b') in *.
    assert (Hm : number m).
    { destruct Hin as [->|Hin]; [assumption|].
      exact (proj1 (list.Forall_forall _ _) Hrest' _ Hin). }
    assert (Hboth : ~ lt m best /\ ~ lt m item).
    { unfold b' in Hnb. destruct (gt item best) eqn:Hgt.
      - apply gt_iff in Hgt; [|assumption..]. split; [|exact Hnb].
        intros Hlt. apply Hnb. exact (lt_trans _ _ _ Hlt Hgt).
      - split; [exact Hnb|]. intros Hlt.
        assert (Hle : ~ lt best item).
        { intros Hc. apply gt_iff in Hc; [|assumption..]. congruence. }
        apply Hle. destruct (total best m Hb Hm) as [Hbm|[Hbm|Hbm]].
        + exact (lt_trans _ _ _ Hbm Hlt).
        + exact (lt_same_l _ _ _ Hbm Hlt).
        + contradiction. }
    destruct Hboth as [Hbest Hit].
    split; [|split; [exact Hbest|]].
    + destruct Hin as [Hin|Hin]; [|right; right; exact Hin].
      unfold b' in Hin. destruct (gt item best); [right; apply elem_of_cons; left|left]; exact Hin.
    + intros x Hx. apply elem_of_cons in Hx as [->|Hx]; [exact Hit|apply Hall, Hx].
Qed.

Lemma py_max_spec x xs :
  Forall number (x :: xs) ->
  exists m, py_max (x :: xs) = Some m /\ m ∈ x :: xs
            /\ forall y, y ∈ x :: xs -> ~ lt m y.
Proof.
  intros Hall. inversion Hall as [|? ? Hx Hxs]; subst.
  destruct (fold_max_spec xs x Hx Hxs) as (Hin & Hnx & Hrest).
  eexists. split; [reflexivity|]. split.
  - apply elem_of_cons. destruct Hin as [Hin|Hin]; [left|right]; exact Hin.
  - intros y Hy. apply elem_of_cons in Hy as [->|Hy]; [exact Hnx|apply Hrest, Hy].
Qed.

Lemma py_index_spec xs v :
  number v -> Forall number xs -> v ∈ xs ->
  exists i x, py_index xs v = Some i /\ xs !! i = Some x /\ same x v
              /\ forall j y, (j < i)%nat -> xs !! j = Some y -> ~ same y v.
Proof.
  intros Hv. induction xs as [|x xs IH]; intros Hall Hin; [inversion Hin|].
  inversion Hall as [|? ? Hx Hxs]; subst. cbn [py_index].
  destruct (eqb x v) eqn:Heq.
  - exists 0%nat, x. apply eqb_iff in Heq; [|assumption..].
    repeat split; [exact Heq|]. intros j y Hj. lia.
  - assert (Hne : ~ same x v).
    { intros Hs. apply eqb_iff in Hs; [|assumption..]. congruence. }
    apply elem_of_cons in Hin as [->|Hin]; [destruct Hne; reflexivity|].
    destruct (IH Hxs Hin) as (i & y & -> & Hi & Hs & Hfirst).
    exists (S i), y. repeat split; [exact Hi|exact Hs|].
    intros [|j] z Hj Hz; cbn in Hz.
    + injection Hz as <-. exact Hne.
    + apply (Hfirst j z); [lia|exact Hz].
Qed.

End PyLists.

(** ** The two classification cells *)

Section Classify.

Context `{SparkML} `{MMLSpark}.

Import Float64 FloatOrder.

Lemma fold_train_and_score train test learners : forall ms aucs,
  fold_left (train_and_score train test) learners (ms, aucs)
  = ((ms ++ map (fun learner => lr_fit learner train) learners)%list,
     (aucs ++ map (fun learner => auc_on test (lr_fit learner train)) learners)%list).
Proof.
  induction learners as [|l ls IH]; intros ms aucs; cbn [fold_left map].
  - rewrite !app_nil_r. reflexivity.
  - unfold train_and_score at 2. rewrite IH, <- !app_assoc. reflexivity.
Qed.

Lemma auc_on_number d m : number (auc_on d m).
Proof. apply areaUnderROC_number. Qed.

Lemma Forall_number_map {A} (f : A -> LogisticRegressionModel) d (l : list A) :
  Forall number (map (fun a => auc_on d (f a)) l).
Proof. induction l; constructor; [apply auc_on_number|assumption]. Qed.

(** What cell 7 does, step by step. *)
Lemma cell_pyspark_runs (processedData : DataFrame) (w : World) :
  exists vars i,
    cell_pyspark processedData w
    = (Ok vars,
       {| fs := <["SparkMLExperiment.mmls" := SavedModel (best_model vars)]> (fs w);
          remote := remote w; broken := broken w; requests := requests w;
          stdout := (stdout w ++ [PValue (VDouble (auc_on (validation vars)
                                                      (best_model vars)))])%list |})
    /\ (train vars, test vars, validation vars)
       = randomSplit split_weights 123 processedData
    /\ models vars = trained (train vars)
    /\ metrics vars = map (auc_on (test vars)) (models vars)
    /\ py_max (metrics vars) = Some (best_metric vars)
    /\ py_index (metrics vars) (best_metric vars) = Some i
    /\ models vars !! i = Some (best_model vars).
Proof.
  unfold cell_pyspark.
  destruct (randomSplit split_weights 123 processedData) as [[tr te] va].
  rewrite fold_train_and_score. cbn [app].
  set (ms := map (fun learner => lr_fit learner tr) logisticRegressions).
  set (aucs := map (fun learner => auc_on te (lr_fit learner tr)) logisticRegressions).
  assert (Hnum : Forall number aucs) by apply Forall_number_map.
  assert (Haucs : aucs = map (auc_on te) ms).
  { unfold aucs, ms. rewrite map_map. reflexivity. }
  destruct aucs as [|a aucs'] eqn:Ha; [discriminate|].
  destruct (py_max_spec a aucs' Hnum) as (bm & Hmax & Hin & _).
  assert (Hbm : number bm) by exact (proj1 (list.Forall_forall _ _) Hnum _ Hin).
  destruct (py_index_spec (a :: aucs') bm Hbm Hnum Hin) as (i & x & Hidx & Hi & _).
  assert (Hlt : (i < length ms)%nat).
  { apply lookup_lt_Some in Hi. rewrite Haucs, length_map in Hi. exact Hi. }
  destruct (lookup_lt_is_Some_2 ms i Hlt) as [best Hbest].
  exists {| train := tr; test := te; validation := va; models := ms;
            metrics := a :: aucs'; best_metric := bm; best_model := best |}, i.
  cbn [train test validation models metrics best_metric best_model].
  split; [|repeat split; assumption].
  unfold mbind, Cell_bind, lift, save_overwrite, print, emit, mret, Cell_ret.
  rewrite Hmax, Hidx, Hbest. reflexivity.
Qed.

End Classify.

Section Selection.

Context `{SparkML} `{MMLSpark}.

Import Float64 FloatOrder.

(** C2: cell 7 ends with a best model that is one of the trained models; its
    area under the ROC curve on the test split equals the greatest of the
    metrics, no trained model has a greater one on that split, and it is
    this model that is saved and whose metric on the validation split is
    printed. *)
Theorem best_model_maximises_test_auc (processedData : DataFrame) (w : World) :
  exists vars,
    (cell_pyspark processedData w).1 = Ok vars
    /\ (train vars, test vars, validation vars)
       = randomSplit split_weights 123 processedData
    /\ models vars = trained (train vars)
    /\ best_model vars ∈ models vars
    /\ py_max (map (auc_on (test vars)) (models vars)) = Some (best_metric vars)
    /\ Float64.eqb (auc_on (test vars) (best_model vars)) (best_metric vars) = true
    /\ (forall m, m ∈ models vars ->
          Float64.gt (auc_on (test vars) m) (auc_on (test vars) (best_model vars)) = false)
    /\ fs (cell_pyspark processedData w).2 !! "SparkMLExperiment.mmls"
       = Some (SavedModel (best_model vars))
    /\ stdout (cell_pyspark processedData w).2
       = (stdout w ++ [PValue (VDouble (auc_on (validation vars) (best_model vars)))])%list.
Proof.
  destruct (cell_pyspark_runs processedData w)
    as (vars & i & -> & Hsplit & Hms & Hmetrics & Hmax & Hidx & Hbest).
  exists vars. cbn [fst snd fs stdout]. rewrite <- Hmetrics.
  assert (Hnum : Forall number (metrics vars)).
  { rewrite Hmetrics. apply (Forall_number_map (fun m => m)). }
  destruct (metrics vars) as [|a aucs] eqn:Ha; [discriminate|].
  destruct (py_max_spec a aucs Hnum) as (bm & Hmax' & Hin & Hupper).
  rewrite Hmax in Hmax'. injection Hmax' as <-.
  assert (Hbm : number (best_metric vars))
    by exact (proj1 (list.Forall_forall _ _) Hnum _ Hin).
  destruct (py_index_spec _ _ Hbm Hnum Hin) as (i' & x & Hidx' & Hi & Hsame & _).
  rewrite Hidx in Hidx'. injection Hidx' as <-.
  assert (Hx : x = auc_on (test vars) (best_model vars)).
  { rewrite Hmetrics, list_lookup_fmap, Hbest in Hi. injection Hi as <-. reflexivity. }
  subst x.
  repeat split; try assumption.
  - apply list_elem_of_lookup. exists i. exact Hbest.
  - apply eqb_iff; [apply auc_on_number|assumption..].
  - intros m Hm. destruct (gt _ _) eqn:Hgt; [|reflexivity].
    apply gt_iff in Hgt; [|apply auc_on_number..].
    destruct (Hupper (auc_on (test vars) m)).
    + rewrite Hmetrics. apply list_elem_of_fmap. exists m. split; [reflexivity|exact Hm].
    + apply (lt_same_l _ _ _ (eq_sym Hsame)). exact Hgt.
  - apply lookup_insert_eq.
Qed.

(** C9: the model selected, saved and evaluated is the one trained with the
    hyperparameter at the first position of [lrHyperParams] whose test
    metric equals the greatest: no earlier position reaches it. *)
Theorem first_maximiser_is_selected (processedData : DataFrame) (w : World) :
  exists vars i hyperParam,
    (cell_pyspark processedData w).1 = Ok vars
    /\ (train vars, test vars, validation vars)
       = randomSplit split_weights 123 processedData
    /\ metrics vars = map (auc_on (test vars)) (trained (train vars))
    /\ py_max (metrics vars) = Some (best_metric vars)
    /\ (forall y, y ∈ metrics vars -> Float64.gt y (best_metric vars) = false)
    /\ lrHyperParams !! i = Some hyperParam
    /\ best_model vars = lr_fit {| regParam := hyperParam |} (train vars)
    /\ (exists x, metrics vars !! i = Some x
                  /\ Float64.eqb x (best_metric vars) = true)
    /\ (forall j y, metrics vars !! j = Some y ->
          Float64.eqb y (best_metric vars) = true -> (i <= j)%nat)
    /\ fs (cell_pyspark processedData w).2 !! "SparkMLExperiment.mmls"
       = Some (SavedModel (best_model vars))
    /\ stdout (cell_pyspark processedData w).2
       = (stdout w ++ [PValue (VDouble (auc_on (validation vars) (best_model vars)))])%list.
Proof.
  destruct (cell_pyspark_runs processedData w)
    as (vars & i & -> & Hsplit & Hms & Hmetrics & Hmax & Hidx & Hbest).
  cbn [fst snd fs stdout].
  assert (Hmetrics' : metrics vars = map (auc_on (test vars)) (trained (train vars)))
    by (rewrite <- Hms; exact Hmetrics).
  assert (Hnum : Forall number (metrics vars)).
  { rewrite Hmetrics. apply (Forall_number_map (fun m => m)). }
  destruct (metrics vars) as [|a aucs] eqn:Ha; [discriminate|].
  destruct (py_max_spec a aucs Hnum) as (bm & Hmax' & Hin & Hupper).
  rewrite Hmax in Hmax'. injection Hmax' as <-.
  assert (Hbm : number (best_metric vars))
    by exact (proj1 (list.Forall_forall _ _) Hnum _ Hin).
  destruct (py_index_spec _ _ Hbm Hnum Hin) as (i' & x & Hidx' & Hi & Hsame & Hfirst).
  rewrite Hidx in Hidx'. injection Hidx' as <-.
  pose proof Hbest as Hhp. rewrite Hms in Hhp. unfold trained, logisticRegressions in Hhp.
  rewrite map_map, list_lookup_fmap in Hhp.
  destruct (lrHyperParams !! i) as [hp|] eqn:Hhpi; [|discriminate].
  injection Hhp as Hhp.
  exists vars, i, hp. rewrite <- Hmetrics', Ha. repeat split; try assumption; try reflexivity.
  - intros y Hy. destruct (gt _ _) eqn:Hgt; [|reflexivity].
    apply gt_iff in Hgt;
      [|exact (proj1 (list.Forall_forall _ _) Hnum _ Hy)|assumption].
    destruct (Hupper y Hy Hgt).
  - symmetry. exact Hhp.
  - exists x. split; [exact Hi|]. apply eqb_iff; try assumption.
    exact (proj1 (list.Forall_forall _ _) Hnum _ (list_elem_of_lookup_2 _ _ _ Hi)).
  - intros j y Hj Hy. destruct (Nat.le_gt_cases i j) as [|Hlt]; [assumption|].
    destruct (Hfirst j y Hlt Hj). apply eqb_iff; try assumption.
    exact (proj1 (list.Forall_forall _ _) Hnum _ (list_elem_of_lookup_2 _ _ _ Hj)).
  - apply lookup_insert_eq.
Qed.


End Selection.


Module FloatRounding.

Import Float64.
Local Open Scope Z_scope.

(** *** The number of binary digits *)

Lemma digits2_pos_bounds p :
  2 ^ (Zpos (digits2_pos p) - 1) <= Zpos p < 2 ^ Zpos (digits2_pos p).
Proof.
  induction p as [p IH|p IH|]; cbn [digits2_pos].
  - rewrite Pos2Z.inj_succ. replace (Z.succ (Zpos (digits2_pos p)) - 1)
      with (Z.succ (Zpos (digits2_pos p) - 1)) by lia.
    rewrite !Z.pow_succ_r by lia. lia.
  - rewrite Pos2Z.inj_succ. replace (Z.succ (Zpos (digits2_pos p)) - 1)
      with (Z.succ (Zpos (digits2_pos p) - 1)) by lia.
    rewrite !Z.pow_succ_r by lia. lia.
  - cbn. lia.
Qed.

Lemma digits2_pos_unique p d :
  2 ^ (d - 1) <= Zpos p < 2 ^ d -> Zpos (digits2_pos p) = d.
Proof.
  intros [Hlo Hhi]. pose proof (digits2_pos_bounds p) as [Hlo' Hhi'].
  assert (Hd : 0 < d).
  { destruct (Z.lt_ge_cases 0 d) as [|Hd]; [assumption|].
    rewrite (Z.pow_neg_r 2 (d - 1)) in Hlo by lia.
    destruct (Z.eq_dec d 0) as [->|]; [cbn in Hhi; lia|].
    rewrite Z.pow_neg_r in Hhi by lia. lia. }
  destruct (Z.lt_trichotomy (Zpos (digits2_pos p)) d) as [Hlt|[Heq|Hgt]];
    [exfalso|exact Heq|exfalso].
  - assert (2 ^ Zpos (digits2_pos p) <= 2 ^ (d - 1)) by (apply Z.pow_le_mono_r; lia).
    lia.
  - assert (2 ^ d <= 2 ^ (Zpos (digits2_pos p) - 1)) by (apply Z.pow_le_mono_r; lia).
    lia.
Qed.

(** *** Locations *)

Lemma new_location_describes den r :
  0 < den -> 0 <= r < den -> describes (new_location den r) r den.
Proof.
  intros Hden Hr. unfold describes, new_location, new_location_even, new_location_odd.
  destruct (Z.even den) eqn:Heven; destruct (r =? 0); try reflexivity.
  f_equal.
  destruct (Z.compare_spec (2 * r + 1) den) as [Heq|Hlt|Hgt];
    destruct (Z.compare_spec (2 * r) den) as [Heq'|Hlt'|Hgt']; try reflexivity; try lia.
  subst den. rewrite Z.even_mul in Heven. discriminate.
Qed.

Lemma round_nearest_even_error m l num den :
  0 <= num < den -> describes l num den ->
  (round_nearest_even m l = m \/ round_nearest_even m l = m + 1)
  /\ 2 * Z.abs (round_nearest_even m l * den - (m * den + num)) <= den.
Proof.
  intros Hnum ->. destruct (Z.eqb_spec num 0) as [->|Hnz]; cbn [round_nearest_even].
  - split; [left; reflexivity|lia].
  - destruct (Z.compare_spec (2 * num) den); [destruct (Z.even m)|..];
      (split; [auto|lia]).
Qed.

Lemma shr_record_of_loc_m m l : shr_m (shr_record_of_loc m l) = m.
Proof. destruct l as [|[]]; reflexivity. Qed.

Lemma loc_of_shr_record_of_loc m l : loc_of_shr_record (shr_record_of_loc m l) = l.
Proof. destruct l as [|[]]; reflexivity. Qed.

Lemma shr_1_nonneg m r s :
  0 <= m -> shr_1 (Build_shr_record m r s) = Build_shr_record (m / 2) (Z.odd m) (r || s).
Proof.
  intros Hm. destruct m as [|p|p]; [reflexivity| |lia].
  destruct p as [p|p|]; cbn [shr_1]; f_equal.
  - rewrite Pos2Z.inj_xI. apply Z.div_unique with 1; lia.
  - rewrite Pos2Z.inj_xO. apply Z.div_unique with 0; lia.
Qed.

(** One shift to the right halves the number and keeps its location. *)
Lemma shr_1_describes m l num den :
  0 <= m -> 0 <= num < den -> describes l num den ->
  shr_m (shr_1 (shr_record_of_loc m l)) = m / 2
  /\ describes (loc_of_shr_record (shr_1 (shr_record_of_loc m l)))
               (m mod 2 * den + num) (2 * den).
Proof.
  intros Hm Hnum ->. unfold describes.
  assert (Hmod : m mod 2 = if Z.odd m then 1 else 0).
  { rewrite Zmod_odd. reflexivity. }
  rewrite Hmod.
  destruct (Z.eqb_spec num 0) as [->|Hnz];
    [|destruct (Z.compare_spec (2 * num) den)]; cbn [shr_record_of_loc];
    rewrite shr_1_nonneg by assumption; cbn [shr_m loc_of_shr_record orb];
    (split; [reflexivity|]); destruct (Z.odd m); cbn [loc_of_shr_record].
  all: repeat match goal with
       | |- context [?a =? 0] => destruct (Z.eqb_spec a 0); try lia
       | |- context [?a ?= ?b] => destruct (Z.compare_spec a b); try lia
       end; reflexivity.
Qed.

(** *** Rounding to 53 bits *)

Lemma shr_fexp_53 p e l :
  2 ^ 52 <= Zpos p < 2 ^ 53 -> -1074 <= e ->
  shr_fexp prec emax (Zpos p) e l = (shr_record_of_loc (Zpos p) l, e).
Proof.
  intros Hp He. unfold shr_fexp, fexp, emin, Zdigits2.
  rewrite (digits2_pos_unique p 53) by exact Hp.
  replace (Z.max (53 + e - prec) (3 - emax - prec) - e) with 0
    by (unfold prec, emax; lia).
  reflexivity.
Qed.

Lemma shr_fexp_54 p e l :
  2 ^ 53 <= Zpos p < 2 ^ 54 -> -1075 <= e ->
  shr_fexp prec emax (Zpos p) e l = (shr_1 (shr_record_of_loc (Zpos p) l), e + 1).
Proof.
  intros Hp He. unfold shr_fexp, fexp, emin, Zdigits2.
  rewrite (digits2_pos_unique p 54) by exact Hp.
  replace (Z.max (54 + e - prec) (3 - emax - prec) - e) with 1
    by (unfold prec, emax; lia).
  reflexivity.
Qed.

(** After rounding, a mantissa that reached [2^53] is shifted once more. *)
Lemma renormalise m e :
  2 ^ 52 <= m <= 2 ^ 53 -> -1074 <= e ->
  exists p j,
    shr_fexp prec emax m e loc_Exact
    = (Build_shr_record (Zpos p) false false, e + j)
    /\ 0 <= j <= 1 /\ Zpos p * 2 ^ j = m /\ 2 ^ 52 <= Zpos p < 2 ^ 53.
Proof.
  intros Hm He. destruct m as [|p|p]; try (cbn in Hm; lia).
  destruct (Z.eq_dec (Zpos p) (2 ^ 53)) as [Heq|Hne].
  - exists (2 ^ 52)%positive, 1. rewrite shr_fexp_54 by lia. rewrite Heq.
    repeat split; try reflexivity; lia.
  - exists p, 0. rewrite shr_fexp_53 by lia. rewrite Z.add_0_r.
    repeat split; try reflexivity; lia.
Qed.

Lemma binary_round_aux_correct q e num den :
  2 ^ 52 <= q < 2 ^ 54 -> -1074 <= e <= 969 -> 0 <= num < den ->
  exists m j,
    binary_round_aux prec emax false q e (new_location den num)
    = S754_finite false m (e + j)
    /\ 0 <= j <= 2 /\ 2 ^ 52 <= Zpos m < 2 ^ 53
    /\ 2 * Z.abs (Zpos m * 2 ^ j * den - (q * den + num)) <= 2 ^ j * den.
Proof.
  intros Hq He Hnum.
  pose proof (new_location_describes den num ltac:(lia) Hnum) as Hloc.
  set (l := new_location den num) in *.
  destruct q as [|p|p]; try (cbn in Hq; lia).
  unfold binary_round_aux.
  destruct (Z.lt_ge_cases (Zpos p) (2 ^ 53)) as [Hlt|Hge].
  - rewrite shr_fexp_53 by lia.
    rewrite shr_record_of_loc_m, loc_of_shr_record_of_loc.
    destruct (round_nearest_even_error (Zpos p) l num den Hnum Hloc) as [Hm' Herr].
    set (m' := round_nearest_even (Zpos p) l) in *.
    destruct (renormalise m' e ltac:(lia) ltac:(lia)) as (r & j & -> & Hj & Hr & Hrb).
    cbn [shr_m]. replace (e + j <=? emax - prec) with true
      by (symmetry; apply Z.leb_le; unfold emax, prec; lia).
    exists r, j. split; [reflexivity|]. split; [lia|]. split; [exact Hrb|].
    rewrite Hr. assert (1 <= 2 ^ j) by (apply (Z.pow_le_mono_r 2 0 j); lia). nia.
  - rewrite shr_fexp_54 by lia.
    destruct (shr_1_describes (Zpos p) l num den ltac:(lia) Hnum Hloc) as [Hhalf Hloc'].
    set (mrs := shr_1 (shr_record_of_loc (Zpos p) l)) in *.
    rewrite Hhalf.
    assert (Hmod : 0 <= Zpos p mod 2 < 2) by (apply Z.mod_pos_bound; lia).
    assert (Hdiv : Zpos p = 2 * (Zpos p / 2) + Zpos p mod 2) by (apply Z.div_mod; lia).
    destruct (round_nearest_even_error (Zpos p / 2) _ (Zpos p mod 2 * den + num)
                (2 * den) ltac:(nia) Hloc') as [Hm' Herr].
    set (m' := round_nearest_even (Zpos p / 2) _) in *.
    destruct (renormalise m' (e + 1) ltac:(lia) ltac:(lia)) as (r & j & -> & Hj & Hr & Hrb).
    cbn [shr_m]. replace (e + 1 + j <=? emax - prec) with true
      by (symmetry; apply Z.leb_le; unfold emax, prec; lia).
    exists r, (1 + j). rewrite Z.add_assoc. split; [reflexivity|]. split; [lia|].
    split; [exact Hrb|].
    rewrite Z.pow_add_r by lia. change (2 ^ 1) with 2.
    assert (1 <= 2 ^ j) by (apply (Z.pow_le_mono_r 2 0 j); lia). nia.
Qed.

Lemma binary_round_aux_exact s p e :
  2 ^ 52 <= Zpos p < 2 ^ 53 -> -1074 <= e <= 971 ->
  binary_round_aux prec emax s (Zpos p) e loc_Exact = S754_finite s p e.
Proof.
  intros Hp He. unfold binary_round_aux.
  rewrite shr_fexp_53 by lia. cbn [shr_record_of_loc shr_m loc_of_shr_record
                                   round_nearest_even].
  rewrite shr_fexp_53 by lia. cbn [shr_record_of_loc shr_m].
  replace (e <=? emax - prec) with true
    by (symmetry; apply Z.leb_le; unfold emax, prec; lia).
  reflexivity.
Qed.

(** *** Integers below [2^53] convert exactly *)

Lemma of_Z_exact z d :
  2 ^ (d - 1) <= z < 2 ^ d -> 0 < d <= 53 ->
  exists m, of_Z z = S754_finite false m (d - 53)
            /\ Zpos m = z * 2 ^ (53 - d) /\ 2 ^ 52 <= Zpos m < 2 ^ 53.
Proof.
  intros Hz Hd.
  assert (Hpow : 2 ^ (d - 1) * 2 ^ (53 - d) = 2 ^ 52).
  { rewrite <- Z.pow_add_r by lia. f_equal. lia. }
  assert (Hpow' : 2 ^ d * 2 ^ (53 - d) = 2 ^ 53).
  { rewrite <- Z.pow_add_r by lia. f_equal. lia. }
  assert (Hpos : 0 < 2 ^ (53 - d)) by (apply Z.pow_pos_nonneg; lia).
  assert (0 < 2 ^ (d - 1)) by (apply Z.pow_pos_nonneg; lia).
  destruct z as [|p|p]; try lia.
  unfold of_Z, binary_normalize, binary_round, shl_align, fexp, emin.
  rewrite (digits2_pos_unique p d) by exact Hz.
  replace (Z.max (d + 0 - prec) (3 - emax - prec) - 0) with (d - 53)
    by (unfold prec, emax; lia).
  destruct (d - 53) as [|n|n] eqn:Hn; try lia.
  - exists p. replace (53 - d) with 0 by lia. rewrite Z.mul_1_r.
    assert (2 ^ 52 <= Zpos p < 2 ^ 53) by (replace d with 53 in * by lia; exact Hz).
    rewrite binary_round_aux_exact by lia. auto.
  - exists (Pos.iter xO p n).
    replace (Z.max (d + 0 - prec) (3 - emax - prec)) with (Zneg n)
      by (unfold prec, emax; lia).
    assert (Hm : Zpos (Pos.iter xO p n) = Zpos p * 2 ^ (53 - d)).
    { change (Pos.iter xO p n) with (shift_pos n p).
      rewrite shift_pos_correct, Z.pow_pos_fold.
      replace (53 - d) with (Zpos n) by lia. lia. }
    assert (2 ^ 52 <= Zpos (Pos.iter xO p n) < 2 ^ 53) by (rewrite Hm; nia).
    rewrite binary_round_aux_exact by lia. auto.
Qed.

(** *** Division *)

Lemma SFdiv_core_binary_correct m1 e1 m2 e2 d1 d2 :
  2 ^ (d1 - 1) <= Zpos m1 < 2 ^ d1 -> 2 ^ (d2 - 1) <= Zpos m2 < 2 ^ d2 ->
  0 < d1 <= d2 + 53 -> 0 < d2 ->
  -1074 <= e1 - e2 - (53 + d2 - d1) ->
  let s := 53 + d2 - d1 in
  SFdiv_core_binary prec emax (Zpos m1) e1 (Zpos m2) e2
  = (Zpos m1 * 2 ^ s / Zpos m2, e1 - e2 - s,
     new_location (Zpos m2) ((Zpos m1 * 2 ^ s) mod Zpos m2))
  /\ 2 ^ 52 <= Zpos m1 * 2 ^ s / Zpos m2 < 2 ^ 54.
Proof.
  intros H1 H2 Hd1 Hd2 He s. split.
  - unfold SFdiv_core_binary, fexp, emin, Zdigits2.
    rewrite (digits2_pos_unique m1 d1), (digits2_pos_unique m2 d2) by assumption.
    replace (Z.min (Z.max (d1 + e1 - (d2 + e2) - prec) (3 - emax - prec)) (e1 - e2))
      with (e1 - e2 - s) by (unfold prec, emax, s; lia).
    replace (e1 - e2 - (e1 - e2 - s)) with s by lia.
    assert (Hm : match s with
                 | 0 => Zpos m1
                 | Zpos _ => Z.shiftl (Zpos m1) s
                 | Zneg _ => 0
                 end = Zpos m1 * 2 ^ s).
    { destruct s as [|n|n] eqn:Hs; [lia| |lia]. apply Z.shiftl_mul_pow2. lia. }
    rewrite Hm. unfold Z.div, Z.modulo.
    destruct (Z.div_eucl (Zpos m1 * 2 ^ s) (Zpos m2)). reflexivity.
  - assert (Hp1 : 2 ^ (d1 - 1) * 2 ^ s = 2 ^ 52 * 2 ^ d2).
    { rewrite <- !Z.pow_add_r by lia. f_equal. unfold s. lia. }
    assert (Hp2 : 2 ^ d1 * 2 ^ s = 2 ^ 54 * 2 ^ (d2 - 1)).
    { rewrite <- !Z.pow_add_r by lia. f_equal. unfold s. lia. }
    assert (0 < 2 ^ s) by (apply Z.pow_pos_nonneg; unfold s; lia).
    assert (0 < 2 ^ (d2 - 1)) by (apply Z.pow_pos_nonneg; lia).
    split.
    + apply Z.div_le_lower_bound; [lia|]. nia.
    + apply Z.div_lt_upper_bound; [lia|]. nia.
Qed.

Lemma round_ratio_correct m1 e1 m2 e2 d1 d2 :
  2 ^ (d1 - 1) <= Zpos m1 < 2 ^ d1 -> 2 ^ (d2 - 1) <= Zpos m2 < 2 ^ d2 ->
  0 < d1 <= d2 + 53 -> 0 < d2 ->
  -1074 <= e1 - e2 - (53 + d2 - d1) <= 969 ->
  let s := 53 + d2 - d1 in
  exists m j,
    round_div m1 e1 m2 e2 = S754_finite false m (e1 - e2 - s + j)
    /\ 0 <= j <= 2 /\ 2 ^ 52 <= Zpos m < 2 ^ 53
    /\ 2 * Z.abs (Zpos m * 2 ^ j * Zpos m2 - Zpos m1 * 2 ^ s) <= 2 ^ j * Zpos m2.
Proof.
  intros H1 H2 Hd1 Hd2 He s. unfold round_div.
  destruct (SFdiv_core_binary_correct m1 e1 m2 e2 d1 d2 H1 H2 Hd1 Hd2 ltac:(lia))
    as [-> Hq]. fold s in Hq |- *.
  assert (Hr : 0 <= (Zpos m1 * 2 ^ s) mod Zpos m2 < Zpos m2)
    by (apply Z.mod_pos_bound; lia).
  destruct (binary_round_aux_correct _ (e1 - e2 - s) _ _ Hq ltac:(lia) Hr)
    as (m & j & -> & Hj & Hm & Herr).
  exists m, j. repeat split; try lia.
  rewrite (Z.div_mod (Zpos m1 * 2 ^ s) (Zpos m2)) at 1 by lia. lia.
Qed.

(** *** Correctly rounded ratios *)

Lemma abs_scale t x q : 0 < t -> 2 * Z.abs (t * x) <= t * q -> 2 * Z.abs x <= q.
Proof. intros Ht H. rewrite Z.abs_mul, (Z.abs_eq t) in H by lia. nia. Qed.

Lemma nearest_ratio_rounds k q d1 d2 :
  2 ^ (d1 - 1) <= Zpos k < 2 ^ d1 -> 2 ^ (d2 - 1) <= Zpos q < 2 ^ d2 ->
  0 < d1 <= d2 + 51 -> 0 < d2 <= 1000 ->
  rounds_ratio (nearest_ratio false k q) (Zpos k) (Zpos q).
Proof.
  intros H1 H2 Hd1 Hd2. change (nearest_ratio false k q) with (round_div k 0 q 0).
  destruct (round_ratio_correct k 0 q 0 d1 d2 H1 H2 ltac:(lia) ltac:(lia) ltac:(lia))
    as (m & j & -> & Hj & Hm & Herr).
  set (s := 53 + d2 - d1) in *.
  exists m, (0 - 0 - s + j). repeat split; try lia.
  replace (- (0 - 0 - s + j)) with (s - j) by lia.
  assert (Hs : 2 ^ s = 2 ^ j * 2 ^ (s - j)).
  { rewrite <- Z.pow_add_r by lia. f_equal. lia. }
  assert (0 < 2 ^ j) by (apply Z.pow_pos_nonneg; lia).
  apply (abs_scale (2 ^ j)); [assumption|].
  rewrite Hs in Herr.
  replace (2 ^ j * (Zpos q * Zpos m - Zpos k * 2 ^ (s - j)))
    with (Zpos m * 2 ^ j * Zpos q - Zpos k * (2 ^ j * 2 ^ (s - j))) by ring.
  exact Herr.
Qed.

Lemma div_of_Z_rounds a b da db :
  2 ^ (da - 1) <= a < 2 ^ da -> 2 ^ (db - 1) <= b < 2 ^ db ->
  0 < da <= 51 -> 0 < db <= 53 ->
  rounds_ratio (div (of_Z a) (of_Z b)) a b.
Proof.
  intros Ha Hb Hda Hdb.
  destruct (of_Z_exact a da Ha ltac:(lia)) as (ma & -> & Hma & Hba).
  destruct (of_Z_exact b db Hb ltac:(lia)) as (mb & -> & Hmb & Hbb).
  change (div (S754_finite false ma (da - 53)) (S754_finite false mb (db - 53)))
    with (round_div ma (da - 53) mb (db - 53)).
  destruct (round_ratio_correct ma (da - 53) mb (db - 53) 53 53 Hba Hbb
              ltac:(lia) ltac:(lia) ltac:(lia)) as (m & j & -> & Hj & Hm & Herr).
  replace (53 + 53 - 53) with 53 in * by lia.
  exists m, (da - 53 - (db - 53) - 53 + j). repeat split; try lia.
  replace (- (da - 53 - (db - 53) - 53 + j)) with (53 + db - da - j) by lia.
  set (w := 2 ^ (53 + db - da - j)).
  assert (Hw : 2 ^ (53 - da) * 2 ^ 53 = 2 ^ j * 2 ^ (53 - db) * w).
  { unfold w. rewrite <- !Z.pow_add_r by lia. f_equal. lia. }
  assert (0 < 2 ^ j * 2 ^ (53 - db)).
  { apply Z.mul_pos_pos; apply Z.pow_pos_nonneg; lia. }
  apply (abs_scale (2 ^ j * 2 ^ (53 - db))); [assumption|].
  rewrite Hma, Hmb in Herr.
  replace (2 ^ j * 2 ^ (53 - db) * (b * Zpos m - a * w))
    with (Zpos m * 2 ^ j * (b * 2 ^ (53 - db))
          - a * (2 ^ j * 2 ^ (53 - db) * w)) by ring.
  rewrite <- Hw.
  replace (a * (2 ^ (53 - da) * 2 ^ 53)) with (a * 2 ^ (53 - da) * 2 ^ 53) by ring.
  replace (2 ^ j * 2 ^ (53 - db) * b) with (2 ^ j * (b * 2 ^ (53 - db))) by ring.
  exact Herr.
Qed.

(** *** Rounding to two decimals *)

Lemma round_half_even_error n d :
  0 <= n -> 0 < d -> 2 * Z.abs (n - round_half_even n d * d) <= d.
Proof.
  intros Hn Hd. unfold round_half_even.
  pose proof (Z.div_mod n d ltac:(lia)) as Hdm.
  pose proof (Z.mod_pos_bound n d Hd) as Hr.
  destruct (Z.compare_spec (2 * (n mod d)) d); [destruct (Z.even (n / d))|..]; nia.
Qed.

Lemma scaled_digits_error m e :
  e <= 0 ->
  2 * Z.abs (100 * Zpos m - scaled_digits m e 2 * 2 ^ (- e)) <= 2 ^ (- e).
Proof.
  intros He. unfold scaled_digits. change (10 ^ Z.of_nat 2) with 100.
  destruct e as [|p|p]; [cbn; lia|lia|].
  change (- Zneg p) with (Zpos p).
  pose proof (round_half_even_error (Zpos m * 100) (2 ^ Zpos p) ltac:(lia)
                ltac:(apply Z.pow_pos_nonneg; lia)).
  lia.
Qed.

Lemma digits_of z : 0 < z -> 2 ^ (Z.log2 z + 1 - 1) <= z < 2 ^ (Z.log2 z + 1).
Proof.
  intros Hz. replace (Z.log2 z + 1 - 1) with (Z.log2 z) by lia.
  apply Z.log2_spec. exact Hz.
Qed.

Lemma digits_le z b : 0 < z < 2 ^ b -> 0 < Z.log2 z + 1 <= b.
Proof.
  intros [Hz Hb]. pose proof (Z.log2_nonneg z).
  assert (0 < b).
  { destruct (Z.lt_ge_cases 0 b) as [|Hle]; [assumption|].
    destruct (Z.eq_dec b 0) as [->|]; [cbn in Hb; lia|].
    rewrite Z.pow_neg_r in Hb by lia. lia. }
  apply Z.log2_lt_pow2 in Hb; lia.
Qed.

Lemma py_round_mean total n :
  0 < n <= total -> total < 2 ^ 45 ->
  exists k, nearest_hundredths k total n
            /\ rounds_ratio (py_round (div (of_Z total) (of_Z n)) 2) k 100.
Proof.
  intros Hn Ht.
  destruct (div_of_Z_rounds total n _ _ (digits_of total ltac:(lia))
              (digits_of n ltac:(lia))
              ltac:(pose proof (digits_le total 45); lia)
              ltac:(pose proof (digits_le n 45); lia))
    as (m & e & -> & Hm & He & Herr).
  pose proof (scaled_digits_error m e He) as Hk.
  set (k := scaled_digits m e 2) in *. set (E := 2 ^ (- e)) in *.
  assert (HE : 0 < E) by (apply Z.pow_pos_nonneg; lia).
  assert (H52 : 2 ^ 52 = 4503599627370496) by reflexivity.
  assert (H45 : 2 ^ 45 = 35184372088832) by reflexivity.
  rewrite H52 in Hm. rewrite H45 in Ht. change (2 ^ 53) with 9007199254740992 in Hm.
  assert (HEm : E <= Zpos m) by nia.
  assert (HmE : Zpos m <= total * E) by nia.
  assert (HEn : 100 * n < E) by nia.
  assert (Hk100 : 100 <= k) by nia.
  assert (Hkt : k <= 100 * total) by nia.
  exists k. split.
  - unfold nearest_hundredths.
    assert (Hsum : 2 * (E * Z.abs (100 * total - k * n)) <= 100 * n + n * E).
    { set (X := 100 * total - k * n).
      set (D := n * Zpos m - total * E) in *.
      set (K := 100 * Zpos m - k * E) in *.
      assert (HX : E * Z.abs X = Z.abs (E * X))
        by (rewrite Z.abs_mul, (Z.abs_eq E); lia).
      assert (HnK : Z.abs (n * K) = n * Z.abs K)
        by (rewrite Z.abs_mul, (Z.abs_eq n); lia).
      assert (HnE : n * (2 * Z.abs K) <= n * E)
        by (apply Z.mul_le_mono_nonneg_l; lia).
      assert (HEX : E * X = n * K - 100 * D) by (unfold X, K, D; ring).
      rewrite HX, HEX. lia. }
    destruct (Z.le_gt_cases (2 * Z.abs (100 * total - k * n)) n) as [|Hgt];
      [assumption|exfalso].
    assert (E * (n + 1) <= E * (2 * Z.abs (100 * total - k * n)))
      by (apply Z.mul_le_mono_nonneg_l; lia).
    lia.
  - cbn [py_round]. fold k. destruct k as [|k'|k']; try lia.
    change (Z.to_pos (10 ^ Z.of_nat 2)) with 100%positive.
    apply (nearest_ratio_rounds k' 100 (Z.log2 (Zpos k') + 1) 7).
    + apply digits_of. lia.
    + cbn. lia.
    + pose proof (digits_le (Zpos k') 52 ltac:(change (2 ^ 52) with 4503599627370496; lia)).
      lia.
    + lia.
Qed.

End FloatRounding.

(** ** The mean word length *)

Lemma words_total_bounds s :
  PyStr.split s <> [] ->
  (0 < word_count s <= fold_right Z.add 0 (map PyStr.len (PyStr.split s)))%Z
  /\ (fold_right Z.add 0 (map PyStr.len (PyStr.split s))
      <= Z.of_nat (String.length s))%Z.
Proof.
  intros Hne. unfold word_count, PyStr.split in *.
  destruct (split_from_words s EmptyString) as [Hw Hs]. cbn [String.length] in Hs.
  split; [|lia]. split; [destruct (PyStr.split_from _ s); [congruence|cbn; lia]|].
  clear Hs Hne. induction Hw as [|w ws Hlen _ IH]; cbn [length map fold_right]; lia.
Qed.

Section WordsOfAText.

Import PyStr.

Lemma split_from_total s : forall cur,
  fold_right Z.add 0%Z (map len (split_from cur s))
  = (Z.of_nat (String.length cur) + Z.of_nat (non_blank_chars s))%Z.
Proof.
  unfold len.
  induction s as [|c s IH]; intros cur; cbn [split_from non_blank_chars].
  - destruct cur; cbn [map fold_right String.length]; lia.
  - destruct (isspace c).
    + destruct cur as [|d cur]; cbn [map fold_right]; rewrite IH;
        cbn [String.length]; lia.
    + rewrite IH, length_snoc. lia.
Qed.

Lemma word_count_is_count_words s : word_count s = Z.of_nat (count_words s).
Proof.
  rewrite word_count_runs, runs_count. unfold count_words.
  rewrite (filter_ext _ _ (starts_after_false s)). reflexivity.
Qed.

End WordsOfAText.

(** C8: for a text with at least one word (and fewer than 2^45 characters, as
    every string of a Spark row has), the derived [wordLength] is the mean
    length of the words rounded to two decimals.  The words are the maximal
    runs of characters that are not whitespace: their number is the number
    of positions that start one, and their lengths add up to the number of
    characters that are not whitespace.  There is a number [k / 100] of two
    decimals, nearest to that exact mean among such numbers, of which
    [wordLength] is the double within half a unit in the last place. *)
Theorem word_length_is_rounded_mean (s : string) :
  (0 < count_words s)%nat ->
  (Z.of_nat (String.length s) < 2 ^ 45)%Z ->
  exists (k : Z) (x : Float64.float),
    nearest_hundredths k (Z.of_nat (non_blank_chars s)) (Z.of_nat (count_words s))
    /\ Float64.rounds_ratio x k 100
    /\ word_length s = x
    /\ forall rating, derived rating s "wordLength" = Some (VDouble x).
Proof.
  intros Hw Hlen.
  pose proof (word_count_is_count_words s) as Hc.
  pose proof (split_from_total s EmptyString) as Ht.
  fold (PyStr.split s) in Ht. cbn [String.length] in Ht.
  assert (Hne : PyStr.split s <> []).
  { intros Hs. unfold word_count in Hc. rewrite Hs in Hc. cbn [length] in Hc. lia. }
  destruct (words_total_bounds s Hne) as [Hn Hb].
  destruct (FloatRounding.py_round_mean
              (fold_right Z.add 0%Z (map PyStr.len (PyStr.split s))) (word_count s))
    as (k & Hk & Hx); [lia..|].
  exists k, (word_length s). split.
  - rewrite <- Hc. replace (Z.of_nat (non_blank_chars s))
      with (fold_right Z.add 0%Z (map PyStr.len (PyStr.split s))) by lia.
    exact Hk.
  - split; [|split; reflexivity].
    unfold word_length, Float64.np_mean. rewrite length_map. exact Hx.
Qed.

Lemma word_length_is_rounded_mean_witness :
  exists (k : Z) (x : Float64.float),
    nearest_hundredths k (Z.of_nat (non_blank_chars "a good  book"))
                         (Z.of_nat (count_words "a good  book"))
    /\ Float64.rounds_ratio x k 100
    /\ word_length "a good  book" = x
    /\ forall rating, derived rating "a good  book" "wordLength" = Some (VDouble x).
Proof.
  apply (word_length_is_rounded_mean "a good  book"); [vm_compute; lia|reflexivity].
Defined.

(** Three words of 1, 4 and 4 characters: the mean 3 is kept as it is. *)
Example word_length_a_good_book :
  word_length "a good  book" = Float64.of_Z 3.
Proof. vm_compute. reflexivity. Qed.

(** Where the exact mean is half-way between two numbers of two decimals,
    the double that holds it decides: 27 words of three letters and 13 of
    two have the mean 2.675, held as a double just below it, and
    [wordLength] is the double of 2.67. *)
Example word_length_half_way :
  let s := "aaa aaa aaa aaa aaa aaa aaa aaa aaa aaa aaa aaa aaa aaa aaa aaa aaa aaa aaa aaa aaa aaa aaa aaa aaa aaa aaa aa aa aa aa aa aa aa aa aa aa aa aa aa" in
  word_count s = 40%Z
  /\ fold_right Z.add 0%Z (map PyStr.len (PyStr.split s)) = 107%Z
  /\ word_length s = Float64.literal 267 100
  /\ nearest_hundredths 267 107 40 /\ nearest_hundredths 268 107 40.
Proof. vm_compute. repeat split; discriminate. Qed.

(** ** The notebook on the small instance *)

Section Runs.

Local Existing Instance Toy.spark.
Local Existing Instance Toy.mmlspark.

(** With no local file the text is fetched, stored and read. *)
Example cell_read_fresh :
  (cell_read Toy.fresh).1 = Ok [review_row (5%Z, "a good  book")]
  /\ requests (cell_read Toy.fresh).2 = [dataUrl]
  /\ fs (cell_read Toy.fresh).2 !! dataFile = Some (File "5	a good  book").
Proof. repeat split; reflexivity. Qed.

(** With the file at hand nothing is fetched. *)
Example cell_read_cached :
  (cell_read Toy.cached).1 = Ok [review_row (3%Z, "bad")]
  /\ requests (cell_read Toy.cached).2 = []
  /\ fs (cell_read Toy.cached).2 !! dataFile = Some (File "3	bad").
Proof. repeat split; reflexivity. Qed.

(** The sweep of the instance scores each model with its own [regParam]:
    the last one, of [0.4], is selected. *)
Example cell_pyspark_selects_greatest :
  exists vars,
    (cell_pyspark [] Toy.fresh).1 = Ok vars
    /\ metrics vars = lrHyperParams
    /\ best_model vars = Float64.literal 4 10
    /\ fs (cell_pyspark [] Toy.fresh).2 !! "SparkMLExperiment.mmls"
       = Some (SavedModel (Float64.literal 4 10))
    /\ stdout (cell_pyspark [] Toy.fresh).2
       = [PValue (VDouble (Float64.literal 4 10))].
Proof. eexists. repeat split; reflexivity. Qed.

End Runs.

Section Ties.

Local Existing Instance Toy.flat.
Local Existing Instance Toy.mmlspark.

(** Where all the models score alike, the first one, of [0.05], is selected. *)
Example cell_pyspark_ties_select_first :
  exists vars,
    (cell_pyspark [] Toy.fresh_flat).1 = Ok vars
    /\ metrics vars = [Toy.one; Toy.one; Toy.one; Toy.one]
    /\ best_model vars = Float64.literal 5 100
    /\ fs (cell_pyspark [] Toy.fresh_flat).2 !! "SparkMLExperiment.mmls"
       = Some (SavedModel (Float64.literal 5 100)).
Proof. eexists. repeat split; reflexivity. Qed.

End Ties.

(** * Further properties of the cells *)

(** ** Words, again *)

Section MoreWords.

Import PyStr.

Lemma split_from_app_space a c b : forall cur,
  isspace c = true ->
  split_from cur (a +:+ String c b) = (split_from cur a ++ split_from EmptyString b)%list.
Proof.
  induction a as [|d a IH]; intros cur Hc; simpl.
  - rewrite Hc. destruct cur; reflexivity.
  - destruct (isspace d).
    + destruct cur; simpl; rewrite IH by exact Hc; reflexivity.
    + apply IH, Hc.
Qed.

Lemma runs_bound s : forall inw,
  (2 * runs inw s <= String.length s + (if inw then 0 else 1))%nat.
Proof.
  induction s as [|c s IH]; intros inw; cbn [runs String.length].
  - destruct inw; lia.
  - destruct (isspace c).
    + specialize (IH false). cbn in IH. destruct inw; lia.
    + specialize (IH true). cbn in IH. destruct inw; lia.
Qed.

End MoreWords.

(** X1: whitespace between two texts keeps their words apart: the words of
    [a], a whitespace character and [b] are the words of [a] followed by
    those of [b], and the word counts add up. *)
Theorem word_count_across_whitespace (a b : string) (c : ascii) :
  PyStr.isspace c = true ->
  PyStr.split (a +:+ String c b) = (PyStr.split a ++ PyStr.split b)%list
  /\ word_count (a +:+ String c b) = (word_count a + word_count b)%Z.
Proof.
  intros Hc. unfold word_count, PyStr.split.
  rewrite split_from_app_space by exact Hc. split; [reflexivity|].
  rewrite length_app. lia.
Qed.

Lemma word_count_across_whitespace_witness :
  PyStr.split ("a good" +:+ String " " "book") = (PyStr.split "a good" ++ PyStr.split "book")%list
  /\ word_count ("a good" +:+ String " " "book") = (word_count "a good" + word_count "book")%Z.
Proof. apply (word_count_across_whitespace "a good" "book" " "). reflexivity. Defined.

(** X2: the word count is 0 for the texts without a character that is not
    whitespace and for no other text; it is never negative, and a text of
    [n] characters has at most [(n + 1) / 2] words. *)
Theorem word_count_zero_and_bound (s : string) :
  (word_count s = 0%Z <-> blank s = true)
  /\ (0 <= word_count s)%Z
  /\ (2 * word_count s <= Z.of_nat (String.length s) + 1)%Z.
Proof.
  split; [|split].
  - rewrite <- split_nil_iff. unfold word_count.
    destruct (PyStr.split s); cbn [length]; split; intros; try congruence; lia.
  - unfold word_count. lia.
  - rewrite word_count_runs. pose proof (runs_bound s false) as Hb. cbn in Hb. lia.
Qed.

(** X3: the lengths that [word_length] averages add up to the number of
    characters of the text that are not whitespace. *)
Theorem word_lengths_sum_to_non_blank (s : string) :
  fold_right Z.add 0%Z (map PyStr.len (PyStr.split s)) = Z.of_nat (non_blank_chars s).
Proof. unfold PyStr.split. rewrite split_from_total. cbn [String.length]. lia. Qed.

(** ** The mean word length, again *)

Module FloatExact.

Import Float64 FloatRounding.
Local Open Scope Z_scope.

(** A double within half a unit in the last place of an integer below
    [2^53] is that integer. *)
Lemma rounds_ratio_integer x L q :
  0 < q -> 0 < L < 2 ^ 53 -> rounds_ratio x (L * q) q -> x = of_Z L.
Proof.
  intros Hq HL (m & e & -> & Hm & He & Herr).
  set (E := 2 ^ (- e)) in *.
  assert (HE : 0 < E) by (apply Z.pow_pos_nonneg; lia).
  assert (HmE : Zpos m = L * E).
  { replace (q * Zpos m - L * q * E) with (q * (Zpos m - L * E)) in Herr by ring.
    rewrite Z.abs_mul, (Z.abs_eq q) in Herr by lia. nia. }
  destruct (of_Z_exact L _ (digits_of L ltac:(lia))
              ltac:(pose proof (digits_le L 53); lia)) as (m' & -> & Hm' & Hb').
  set (d := Z.log2 L + 1) in *.
  assert (Hd : 0 < d <= 53) by (pose proof (digits_le L 53); lia).
  assert (Hexp : - e = 53 - d).
  { destruct (Z.lt_trichotomy (- e) (53 - d)) as [Hlt|[Heq|Hgt]];
      [exfalso|exact Heq|exfalso].
    - assert (2 * E <= 2 ^ (53 - d)).
      { unfold E. rewrite <- (Z.pow_succ_r 2 (- e)) by lia.
        apply Z.pow_le_mono_r; lia. }
      nia.
    - assert (2 * 2 ^ (53 - d) <= E).
      { unfold E. rewrite <- (Z.pow_succ_r 2 (53 - d)) by lia.
        apply Z.pow_le_mono_r; lia. }
      nia. }
  assert (Hmm : m = m').
  { apply Pos2Z.inj. rewrite HmE, Hm'. unfold E. rewrite Hexp. reflexivity. }
  f_equal; [exact Hmm|lia].
Qed.

(** From a nearest number of two decimals back to bounds on it. *)
Lemma nearest_hundredths_at_least total n k :
  0 < n <= total -> nearest_hundredths k total n -> 100 <= k.
Proof. unfold nearest_hundredths. intros Hn Hk. nia. Qed.

Lemma rounds_ratio_at_least_one x k :
  100 <= k -> rounds_ratio x k 100 -> gt (of_Z 1) x = false /\ number x.
Proof.
  intros Hk (m & e & -> & Hm & He & Herr).
  set (E := 2 ^ (- e)) in *.
  assert (HE : 0 < E) by (apply Z.pow_pos_nonneg; lia).
  assert (HEm : E <= Zpos m) by nia.
  assert (He52 : -52 <= e).
  { destruct (Z.le_gt_cases (-52) e) as [|Hlt]; [assumption|exfalso].
    assert (2 ^ 53 <= E) by (apply Z.pow_le_mono_r; lia). lia. }
  split; [|discriminate].
  destruct (gt _ _) eqn:Hgt; [exfalso|reflexivity].
  apply FloatOrder.gt_iff in Hgt; [|discriminate..].
  change (of_Z 1) with (S754_finite false 4503599627370496 (-52)) in Hgt.
  unfold lt, lex_lt, key in Hgt.
  destruct Hgt as [?|[_ [?|[-> Hlt]]]]; lia.
Qed.

End FloatExact.

(** X4: for a text of fewer than 2^45 characters, [word_length] is NaN
    exactly when the text has no word; when it has one, [word_length] is a
    number, and not below 1. *)
Theorem word_length_number_iff_words (s : string) :
  (Z.of_nat (String.length s) < 2 ^ 45)%Z ->
  (word_length s = Float64.nan <-> blank s = true)
  /\ (blank s = false ->
      Float64.number (word_length s)
      /\ Float64.gt (Float64.of_Z 1) (word_length s) = false).
Proof.
  intros Hlen.
  assert (Hwords : blank s = false ->
            Float64.gt (Float64.of_Z 1) (word_length s) = false
            /\ Float64.number (word_length s)).
  { intros Hb.
    assert (Hne : PyStr.split s <> []).
    { intros Hs. apply split_nil_iff in Hs. congruence. }
    destruct (words_total_bounds s Hne) as [Hn Ht].
    destruct (FloatRounding.py_round_mean
                (fold_right Z.add 0%Z (map PyStr.len (PyStr.split s))) (word_count s))
      as (k & Hk & Hx); [lia..|].
    apply (FloatExact.rounds_ratio_at_least_one _ k).
    - exact (FloatExact.nearest_hundredths_at_least _ _ _ Hn Hk).
    - unfold word_length, Float64.np_mean. rewrite length_map. exact Hx. }
  split.
  - split.
    + intros Hnan. destruct (blank s) eqn:Hb; [reflexivity|].
      destruct (Hwords eq_refl) as [_ Hnum]. destruct (Hnum Hnan).
    + intros Hb. apply split_nil_iff in Hb. unfold word_length. rewrite Hb. reflexivity.
  - intros Hb. destruct (Hwords Hb). split; assumption.
Qed.

Lemma word_length_number_iff_words_witness :
  (word_length "a good  book" = Float64.nan <-> blank "a good  book" = true)
  /\ (blank "a good  book" = false ->
      Float64.number (word_length "a good  book")
      /\ Float64.gt (Float64.of_Z 1) (word_length "a good  book") = false).
Proof. apply (word_length_number_iff_words "a good  book"). reflexivity. Defined.

Lemma equal_lengths_total (ws : list string) (L : Z) :
  Forall (fun w => PyStr.len w = L) ws ->
  fold_right Z.add 0%Z (map PyStr.len ws) = (L * Z.of_nat (length ws))%Z.
Proof.
  induction 1 as [|w ws Hw _ IH]; cbn [map fold_right length]; [lia|].
  rewrite IH, Hw. lia.
Qed.

(** X5: when all the words of a text have the same length [L] (a text of
    one word, say), [word_length] is [L] exactly: neither the division
    nor the rounding to two decimals moves it. *)
Theorem word_length_of_equal_words (s : string) (L : Z) :
  PyStr.split s <> [] ->
  Forall (fun w => PyStr.len w = L) (PyStr.split s) ->
  (Z.of_nat (String.length s) < 2 ^ 45)%Z ->
  word_length s = Float64.of_Z L.
Proof.
  intros Hne Hall Hlen. destruct (words_total_bounds s Hne) as [Hn Ht].
  pose proof (equal_lengths_total _ _ Hall) as Htot. fold (word_count s) in Htot.
  destruct (FloatRounding.py_round_mean
              (fold_right Z.add 0%Z (map PyStr.len (PyStr.split s))) (word_count s))
    as (k & Hk & Hx); [lia..|].
  assert (HL : (0 < L < 2 ^ 45)%Z) by nia.
  assert (Hk100 : k = (L * 100)%Z).
  { unfold nearest_hundredths in Hk. rewrite Htot in Hk.
    replace (100 * (L * word_count s) - k * word_count s)%Z
      with (word_count s * (100 * L - k))%Z in Hk by ring.
    rewrite Z.abs_mul, (Z.abs_eq (word_count s)) in Hk by lia. nia. }
  subst k.
  apply (FloatExact.rounds_ratio_integer _ L 100); [lia| |].
  - split; [lia|]. apply Z.lt_trans with (2 ^ 45)%Z; [lia|reflexivity].
  - unfold word_length, Float64.np_mean. rewrite length_map. exact Hx.
Qed.

Lemma word_length_of_equal_words_witness :
  word_length "good book" = Float64.of_Z 4.
Proof.
  apply (word_length_of_equal_words "good book" 4);
    [discriminate|repeat constructor|reflexivity].
Defined.

(** ** The frames of cells 4 and 6 *)

(** A text with a word has a mean word length; a text without has none. *)
Lemma word_length_number (s : string) :
  blank s = false -> (Z.of_nat (String.length s) < 2 ^ 45)%Z ->
  Float64.number (word_length s).
Proof.
  intros Hb Hlen.
  assert (Hne : PyStr.split s <> []).
  { intros Hs. apply split_nil_iff in Hs. congruence. }
  destruct (words_total_bounds s Hne) as [Hn Ht].
  destruct (FloatRounding.py_round_mean
              (fold_right Z.add 0%Z (map PyStr.len (PyStr.split s))) (word_count s))
    as (k & _ & Hx); [lia..|].
  assert (Hr : Float64.rounds_ratio (word_length s) k 100)
    by (unfold word_length, Float64.np_mean; rewrite length_map; exact Hx).
  destruct Hr as (m & e & Hm & _). rewrite Hm. discriminate.
Qed.

Lemma word_length_blank (s : string) :
  blank s = true -> word_length s = Float64.nan.
Proof.
  intros Hs. apply split_nil_iff in Hs. unfold word_length. rewrite Hs. reflexivity.
Qed.

Section MoreFrames.

Context `{SparkML}.

Lemma has_words_numbers (rs : list (Z * string)) :
  Forall has_words (map review_row rs) ->
  Forall (fun r => Float64.number (word_length r.2)) rs.
Proof.
  rewrite Forall_fmap. intros Hw. eapply Forall_impl; [exact Hw|].
  intros [rating text] (t & [= <-] & Hb & Hlen). apply word_length_number; assumption.
Qed.

Lemma has_no_word_nan (rs : list (Z * string)) :
  Exists has_no_word (map review_row rs) ->
  Exists (fun r => word_length r.2 = Float64.nan) rs.
Proof.
  rewrite Exists_fmap. intros Hw. eapply Exists_impl; [exact Hw|].
  intros [rating text] (t & [= <-] & Hb). apply word_length_blank, Hb.
Qed.

Lemma numbers_have_words (rs : list (Z * string)) :
  Forall (fun r => Float64.number (word_length r.2)) rs ->
  Forall (fun raw => exists text,
            field "text" raw = Some (VString text) /\ blank text = false)
         (map review_row rs).
Proof.
  rewrite Forall_fmap. intros Hn. eapply Forall_impl; [exact Hn|].
  intros [rating text] Hnum. exists text. split; [reflexivity|].
  destruct (blank text) eqn:Hb; [|reflexivity].
  destruct (Hnum (word_length_blank text Hb)).
Qed.

Lemma processedData_assembled rs a :
  assembledData (map derived_row rs) = Some a ->
  processedData a = Some (map processed_row rs).
Proof.
  destruct (numbers_or_nan rs) as [Hnum|Hnan];
    [|rewrite (assembledData_nan rs Hnan); discriminate].
  rewrite (assembledData_derived rs Hnum). intros [= <-].
  unfold processedData, select.
  rewrite (mapM_map_Some _ _
             (fun r => [("label", VBool (3 <? r.1)%Z);
                        ("features",
                         VVector (hashing_tf numFeatures (tokenize r.2)
                                  ++ [Float64.of_Z (word_count r.2);
                                      word_length r.2]))]))
    by reflexivity.
  cbn [mbind option_bind]. unfold withColumn.
  apply mapM_map_Some. intros r. reflexivity.
Qed.

(** C3: in a frame where every review text has a word, the assembled
    features of a row are the hashed tokens of its text, then its word
    count, then its mean word length.  Where the text of some review has
    no word, its mean word length is NaN, which the assembler refuses: no
    features are assembled. *)
Theorem features_are_hashed_text_then_numbers
    (cells : list (list value)) (raw_data : DataFrame) :
  createDataFrame cells textSchema = Some raw_data ->
  exists d, data raw_data = Some d
    /\ (Forall has_words raw_data ->
        exists a, assembledData d = Some a
          /\ Forall2 (fun raw row =>
                       exists text,
                     field "text" raw = Some (VString text)
                     /\ field "features" row
                        = Some (VVector (hashing_tf numFeatures (tokenize text)
                                         ++ [Float64.of_Z (word_count text);
                                             word_length text])))
                     raw_data a)
    /\ (Exists has_no_word raw_data -> assembledData d = None).
Proof.
  intros Hraw. apply createDataFrame_reviews in Hraw as [rs ->].
  exists (map derived_row rs). split; [apply data_reviews|]. split.
  - intros Hw. eexists. split; [exact (assembledData_derived rs (has_words_numbers rs Hw))|].
    apply Forall2_fmap, Forall_Forall2_diag, Forall_forall.
    intros [rating text] _. exists text. split; reflexivity.
  - intros Hb. exact (assembledData_nan rs (has_no_word_nan rs Hb)).
Qed.

(** X6: the derived frame has a row for each raw row, with the columns
    text, wordCount, wordLength and label in this order; the rating is
    gone, and the text is the one of the raw row. *)
Theorem data_drops_rating (cells : list (list value)) (raw_data : DataFrame) :
  createDataFrame cells textSchema = Some raw_data ->
  exists d, data raw_data = Some d
    /\ length d = length raw_data
    /\ Forall (fun row => map fst row = ["text"; "wordCount"; "wordLength"; "label"]
                          /\ field "rating" row = None) d
    /\ Forall2 (fun raw row => field "text" row = field "text" raw) raw_data d.
Proof.
  intros Hraw. apply createDataFrame_reviews in Hraw as [rs ->].
  exists (map derived_row rs). split; [apply data_reviews|].
  split; [rewrite !length_map; reflexivity|]. split.
  - apply Forall_fmap, Forall_forall. intros r _. split; reflexivity.
  - apply Forall2_fmap, Forall_Forall2_diag, Forall_forall. intros r _. reflexivity.
Qed.

(** X7: on a frame of the schema where every review text has a word, cells
    4 and 6 go through, and the processed frame has two columns: the label
    as an integer, 1 for a rating above 3 and 0 otherwise, and the
    assembled features. *)
Theorem processed_rows_are_label_and_features
    (cells : list (list value)) (raw_data : DataFrame) :
  createDataFrame cells textSchema = Some raw_data ->
  Forall has_words raw_data ->
  exists d a p,
    data raw_data = Some d /\ assembledData d = Some a /\ processedData a = Some p
    /\ Forall2 (fun raw row =>
                 exists rating text,
                   raw = review_row (rating, text)
                   /\ row = [("label", VInt (if (3 <? rating)%Z then 1 else 0));
                             ("features",
                              VVector (hashing_tf numFeatures (tokenize text)
                                       ++ [Float64.of_Z (word_count text);
                                           word_length text]))])
               raw_data p.
Proof.
  intros Hraw Hw. apply createDataFrame_reviews in Hraw as [rs ->].
  pose proof (assembledData_derived rs (has_words_numbers rs Hw)) as Ha.
  eexists _, _, _. split; [apply data_reviews|].
  split; [exact Ha|].
  split; [exact (processedData_assembled rs _ Ha)|].
  apply Forall2_fmap, Forall_Forall2_diag, Forall_forall.
  intros [rating text] _. exists rating, text. split; reflexivity.
Qed.

End MoreFrames.

(** ** Reading, again *)

Section MoreReading.

Context `{SparkML} `{MMLSpark}.

(** What a run that ends normally leaves. *)
Lemma cell_read_ok w df w1 :
  cell_read w = (Ok df, w1) ->
  exists text w0,
    fs w1 !! dataFile = Some (File text) /\ parsed text = Some df
    /\ w1 = printing w0 [PTable (take 5 df)]
    /\ stdout w0 = stdout w /\ remote w0 = remote w
    /\ (w0 = w \/ w0 = downloaded w text).
Proof.
  destruct (file_or_not w) as [[text Hfile]|Hno].
  - rewrite (cell_read_with_file w text Hfile).
    destruct (parsed text) as [df'|] eqn:Hp; [|discriminate].
    intros [= <- <-]. exists text, w. cbn [printing fs]. auto 10.
  - rewrite (cell_read_without_file w Hno).
    destruct (transfer dataUrl w) as [[body [|]]|]; [| |discriminate];
      (destruct (fs w !! dataFile); [discriminate|]); [|discriminate].
    destruct (parsed body) as [df'|] eqn:Hp; [|discriminate].
    intros [= <- <-]. exists body, (downloaded w body).
    cbn [printing downloaded fs stdout remote]. rewrite lookup_insert_eq. auto 10.
Qed.

(** X8: after a run of cell 2 that ended normally, the file is there: a
    second run fetches nothing, leaves the files as they are, returns the
    same frame and shows it once more. *)
Theorem cell_read_again (w w1 : World) (df : DataFrame) :
  cell_read w = (Ok df, w1) ->
  cell_read w1 = (Ok df, printing w1 [PTable (take 5 df)]).
Proof.
  intros Hrun. destruct (cell_read_ok w df w1 Hrun) as (text & w0 & Hfile & Hp & _).
  rewrite (cell_read_with_file w1 text Hfile), Hp. reflexivity.
Qed.

(** X9: a run of cell 2 that fails has printed nothing, and leaves the
    world in one of four states: as it was (the file is there and is no
    table of the schema); with the request made and no file written (the
    URL could not be opened, or the path is taken by something that is no
    file); with the request made and the part that arrived written as the
    data file, when the transfer broke off (a later run of the cell then
    finds that file and fetches nothing); or with the request made and the
    whole of what was served written, when that is no table of the
    schema. *)
Theorem cell_read_failures (w w1 : World) (exn : string) :
  cell_read w = (Raise exn, w1) ->
  stdout w1 = stdout w
  /\ (w1 = w
      \/ w1 = requested w
      \/ (exists part, remote w !! dataUrl = None /\ broken w !! dataUrl = Some part
                       /\ w1 = downloaded w part
                       /\ requests (cell_read w1).2 = requests w1)
      \/ (exists body, remote w !! dataUrl = Some body /\ parsed body = None
                       /\ w1 = downloaded w body)).
Proof.
  destruct (file_or_not w) as [[text Hfile]|Hno].
  - rewrite (cell_read_with_file w text Hfile).
    destruct (parsed text) as [df'|]; [discriminate|].
    intros [= <- <-]. split; [reflexivity|]. left; reflexivity.
  - rewrite (cell_read_without_file w Hno). unfold transfer.
    destruct (remote w !! dataUrl) as [body|] eqn:Hbody.
    + destruct (fs w !! dataFile).
      * intros [= <- <-]. split; [reflexivity|]. right; left; reflexivity.
      * destruct (parsed body) as [df'|] eqn:Hp; [discriminate|].
        intros [= <- <-]. split; [reflexivity|]. right; right; right.
        exists body. auto.
    + destruct (broken w !! dataUrl) as [part|] eqn:Hpart; cbn [fmap option_fmap option_map].
      * destruct (fs w !! dataFile).
        -- intros [= <- <-]. split; [reflexivity|]. right; left; reflexivity.
        -- intros [= <- <-]. split; [reflexivity|]. right; right; left.
           exists part. repeat split.
           apply (cell_read_present (downloaded w part) part).
           cbn [downloaded fs]. apply lookup_insert_eq.
      * intros [= <- <-]. split; [reflexivity|]. right; left; reflexivity.
Qed.

(** X10: the frame that cell 2 returns has in every row an integer rating
    and a text; the cell prints one table, the first five rows at most, and
    makes one request or none. *)
Theorem cell_read_frame (w w1 : World) (df : DataFrame) :
  cell_read w = (Ok df, w1) ->
  (exists rs, df = map review_row rs)
  /\ stdout w1 = (stdout w ++ [PTable (take 5 df)])%list
  /\ (requests w1 = requests w
      \/ requests w1 = (requests w ++ [dataUrl])%list).
Proof.
  intros Hrun.
  destruct (cell_read_ok w df w1 Hrun) as (text & w0 & _ & Hp & -> & Hout & _ & Hw0).
  split; [|split].
  - unfold parsed in Hp. destruct (read_csv text) as [pdf|]; [|discriminate].
    exact (createDataFrame_reviews _ _ Hp).
  - cbn [printing stdout]. rewrite Hout. reflexivity.
  - destruct Hw0 as [->| ->]; [left|right]; reflexivity.
Qed.

End MoreReading.

(** ** The whole notebook *)

Section WholeRun.

Context `{SparkML} `{MMLSpark}.

Lemma bind_run {A B} (m : Cell A) (f : A -> Cell B) (w : World) :
  (m ≫= f) w
  = match m w with
    | (Ok a, w') => f a w'
    | (Raise exn, w') => (Raise exn, w')
    end.
Proof. reflexivity. Qed.

(** What cell 7 returns does not depend on the files or the output. *)
Lemma cell_pyspark_result (p : DataFrame) (w w' : World) :
  (cell_pyspark p w).1 = (cell_pyspark p w').1.
Proof.
  unfold cell_pyspark.
  destruct (randomSplit split_weights 123 p) as [[tr te] va].
  destruct (fold_left _ _ _) as [ms aucs].
  unfold mbind, Cell_bind, lift, save_overwrite, print, emit, mret, Cell_ret.
  destruct (py_max aucs) as [bm|]; [|reflexivity].
  destruct (py_index aucs bm) as [j|]; [|reflexivity].
  destruct (ms !! j); reflexivity.
Qed.

(** What cell 8 does when the statistics hold an AUC. *)
Lemma cell_mmlspark_runs (data : DataFrame) (w : World) (auc : value) :
  first_field "AUC" (mml_statistics data) = Some auc ->
  exists vars,
    cell_mmlspark data w
    = (Ok vars,
       {| fs := <["MMLSExperiment.mmls" := SavedBestModel (mml_best data)]> (fs w);
          remote := remote w; broken := broken w; requests := requests w;
          stdout := (stdout w ++ [PValue auc])%list |}).
Proof.
  unfold mml_statistics, mml_best, cell_mmlspark.
  destruct (randomSplit split_weights 123 data) as [[tr te] va].
  intros Hauc. eexists.
  unfold mbind, Cell_bind, lift, save_overwrite, print, emit, mret, Cell_ret.
  cbn [fs remote requests stdout]. rewrite Hauc. reflexivity.
Qed.

(** What cell 8 does when they hold none. *)
Lemma cell_mmlspark_raises (data : DataFrame) (w : World) :
  first_field "AUC" (mml_statistics data) = None ->
  exists exn w', cell_mmlspark data w = (Raise exn, w').
Proof.
  unfold mml_statistics, mml_best, cell_mmlspark.
  destruct (randomSplit split_weights 123 data) as [[tr te] va].
  intros Hauc. eexists _, _.
  unfold mbind, Cell_bind, lift, save_overwrite, print, emit, mret, Cell_ret.
  cbn [fs remote requests stdout]. rewrite Hauc. reflexivity.
Qed.

(** X11: cell 7 can be run again: the model path is written over, so the
    second run ends normally with the same variables, leaves the files as
    the first run left them, and prints the same metric once more. *)
Theorem cell_pyspark_again (p : DataFrame) (w : World) :
  exists vars,
    (cell_pyspark p w).1 = Ok vars
    /\ cell_pyspark p (cell_pyspark p w).2
       = (Ok vars,
          printing (cell_pyspark p w).2
            [PValue (VDouble (auc_on (validation vars) (best_model vars)))]).
Proof.
  destruct (cell_pyspark_runs p w) as (vars & i & Hrun & _).
  destruct (cell_pyspark_runs p (cell_pyspark p w).2) as (vars' & i' & Hrun' & _).
  assert (Hsame : vars' = vars).
  { pose proof (cell_pyspark_result p (cell_pyspark p w).2 w) as Hres.
    rewrite Hrun' in Hres. rewrite Hrun in Hres. cbn [fst] in Hres.
    injection Hres as ->. reflexivity. }
  subst vars'. exists vars. split; [rewrite Hrun; reflexivity|].
  rewrite Hrun'. rewrite Hrun. cbn [snd fs remote requests stdout printing].
  rewrite insert_insert_eq. reflexivity.
Qed.

(** X12: when the statistics of cell 8 hold no AUC, the cell raises at the
    lookup: the best model is saved by then, and nothing is printed. *)
Theorem cell_mmlspark_without_auc (data : DataFrame) (w : World) :
  first_field "AUC" (mml_statistics data) = None ->
  exists exn,
    cell_mmlspark data w
    = (Raise exn,
       {| fs := <["MMLSExperiment.mmls" := SavedBestModel (mml_best data)]> (fs w);
          remote := remote w; broken := broken w; requests := requests w;
          stdout := stdout w |}).
Proof.
  unfold mml_statistics, mml_best, cell_mmlspark.
  destruct (randomSplit split_weights 123 data) as [[tr te] va].
  intros Hauc. eexists.
  unfold mbind, Cell_bind, lift, save_overwrite, print, emit, mret, Cell_ret.
  cbn [fs remote requests stdout]. rewrite Hauc. reflexivity.
Qed.

(** X13: a run of the notebook that ends normally has read a data file
    that holds a table of the schema in which every review has a word, from
    the file at hand or from the one it downloaded.  It has printed the
    first rows of the raw and of the derived frame and then the two
    metrics, in this order and nothing else, and has written the two
    models, each under its own path, over the files it found. *)
Theorem notebook_normal_end (w w' : World) :
  notebook w = (Ok tt, w') ->
  exists text raw_data d p vars auc w0,
    (w0 = w \/ w0 = downloaded w text)
    /\ fs w0 !! dataFile = Some (File text)
    /\ parsed text = Some raw_data
    /\ Forall (fun raw => exists text,
                 field "text" raw = Some (VString text) /\ blank text = false)
              raw_data
    /\ data raw_data = Some d
    /\ (assembledData d ≫= processedData) = Some p
    /\ (cell_pyspark p w).1 = Ok vars
    /\ first_field "AUC" (mml_statistics d) = Some auc
    /\ w' = {| fs := <["MMLSExperiment.mmls" := SavedBestModel (mml_best d)]>
                       (<["SparkMLExperiment.mmls" := SavedModel (best_model vars)]>
                          (fs w0));
               remote := remote w; broken := broken w; requests := requests w0;
               stdout := (stdout w
                          ++ [PTable (take 5 raw_data); PTable (take 5 d);
                              PValue (VDouble (auc_on (validation vars)
                                                      (best_model vars)));
                              PValue auc])%list |}.
Proof.
  unfold notebook. rewrite bind_run.
  destruct (cell_read w) as [[raw_data|exn] w1] eqn:Hread; [|discriminate].
  destruct (cell_read_ok w raw_data w1 Hread)
    as (text & w0 & Hfile & Hp & -> & Hout & Hrem & Hw0).
  assert (Hrs : exists rs, raw_data = map review_row rs).
  { unfold parsed in Hp. destruct (read_csv text) as [pdf|]; [|discriminate].
    exact (createDataFrame_reviews _ _ Hp). }
  destruct Hrs as [rs ->].
  rewrite bind_run. unfold lift at 1. rewrite data_reviews.
  rewrite bind_run. unfold cell_show, show, emit.
  rewrite bind_run. unfold lift at 1.
  destruct (numbers_or_nan rs) as [Hnum|Hnan];
    [|rewrite (assembledData_nan rs Hnan); discriminate].
  pose proof (assembledData_derived rs Hnum) as Ha. rewrite Ha.
  rewrite bind_run. unfold lift at 1.
  pose proof (processedData_assembled rs _ Ha) as Hpd. rewrite Hpd.
  rewrite bind_run.
  match goal with |- context [cell_pyspark _ ?w2] =>
    destruct (cell_pyspark_runs (map processed_row rs) w2) as (vars & i & Hrun & _);
    pose proof (cell_pyspark_result (map processed_row rs) w w2) as Hres
  end.
  rewrite Hrun in Hres |- *. cbn [fst] in Hres.
  rewrite bind_run.
  destruct (first_field "AUC" (mml_statistics (map derived_row rs)))
    as [auc|] eqn:Hauc.
  - match goal with |- context [cell_mmlspark _ ?w3] =>
      destruct (cell_mmlspark_runs (map derived_row rs) w3 auc Hauc) as [mvars ->]
    end.
    unfold mret, Cell_ret. intros [= <-].
    exists text, (map review_row rs), (map derived_row rs), (map processed_row rs),
      vars, auc, w0.
    split; [exact Hw0|]. split.
    { cbn [printing fs] in Hfile. exact Hfile. }
    split; [exact Hp|]. split; [exact (numbers_have_words rs Hnum)|].
    split; [apply data_reviews|]. split.
    { rewrite Ha. exact Hpd. }
    split; [exact Hres|]. split; [exact Hauc|].
    cbn [printing fs remote broken requests stdout].
    rewrite Hout, Hrem, <- !app_assoc.
    destruct Hw0 as [->| ->]; reflexivity.
  - match goal with |- context [cell_mmlspark _ ?w3] =>
      destruct (cell_mmlspark_raises (map derived_row rs) w3 Hauc) as (exn & w4 & ->)
    end.
    discriminate.
Qed.

(** X14: when the data file is there and its text is no table of the
    schema, the notebook stops in cell 2: nothing is printed, saved or
    fetched. *)
Theorem notebook_unreadable_file (w : World) (text : string) :
  fs w !! dataFile = Some (File text) ->
  parsed text = None ->
  exists exn, notebook w = (Raise exn, w).
Proof.
  intros Hfile Hp. eexists. unfold notebook.
  unfold mbind at 1, Cell_bind at 1. rewrite (cell_read_with_file w text Hfile), Hp.
  reflexivity.
Qed.

Lemma cell_read_requests (w : World) :
  remote (cell_read w).2 = remote w
  /\ (requests (cell_read w).2 = requests w
      \/ requests (cell_read w).2 = (requests w ++ [dataUrl])%list).
Proof.
  destruct (file_or_not w) as [[text Hfile]|Hno].
  - rewrite (cell_read_with_file w text Hfile).
    destruct (parsed text); split; auto.
  - rewrite (cell_read_without_file w Hno).
    destruct (transfer dataUrl w) as [[body complete]|]; [|split; auto].
    destruct (fs w !! dataFile); [split; auto|].
    destruct complete; [|split; auto].
    destruct (parsed body); split; auto.
Qed.

(** Cell 8 leaves the network alone. *)
Lemma cell_mmlspark_requests (d : DataFrame) (w : World) :
  remote (cell_mmlspark d w).2 = remote w
  /\ requests (cell_mmlspark d w).2 = requests w.
Proof.
  unfold cell_mmlspark.
  destruct (randomSplit split_weights 123 d) as [[tr te] va].
  unfold mbind, Cell_bind, lift, save_overwrite, print, emit, mret, Cell_ret.
  cbn [fs remote requests stdout].
  destruct (first_field "AUC" _); split; reflexivity.
Qed.

(** The cells after the first leave the network alone. *)
Lemma after_read_no_request (d0 : DataFrame) (w1 : World) :
  let rest : Cell unit :=
    d ← lift "AnalysisException" (data d0);
    _ ← cell_show d;
    a ← lift "SparkException" (assembledData d);
    p ← lift "AnalysisException" (processedData a);
    _ ← cell_pyspark p;
    _ ← cell_mmlspark d;
    mret tt in
  remote (rest w1).2 = remote w1 /\ requests (rest w1).2 = requests w1.
Proof.
  cbn zeta.
  unfold mbind, Cell_bind, lift, cell_show, show, emit, mret, Cell_ret.
  destruct (data d0) as [d|]; cbv beta iota; [|split; reflexivity].
  destruct (assembledData d) as [a|]; cbv beta iota; [|split; reflexivity].
  destruct (processedData a) as [p|]; cbv beta iota; [|split; reflexivity].
  match goal with |- context [cell_pyspark p ?w] =>
    destruct (cell_pyspark_runs p w) as (vars & i & -> & _) end.
  cbv beta iota.
  match goal with |- context [cell_mmlspark d ?w] =>
    destruct (cell_mmlspark_requests d w) as [Hrem Hreq];
    destruct (cell_mmlspark d w) as [[mvars|exn] w2] end;
    cbn [snd] in *; split; assumption.
Qed.

(** X15: whatever the world, and whether the run ends normally or stops
    at a failure, the notebook leaves what is served as it is and makes no
    request but the one for the data file, once at most. *)
Theorem notebook_fetches_at_most_once (w : World) :
  remote (notebook w).2 = remote w
  /\ (requests (notebook w).2 = requests w
      \/ requests (notebook w).2 = (requests w ++ [dataUrl])%list).
Proof.
  destruct (cell_read_requests w) as [Hrem Hreq].
  unfold notebook. rewrite bind_run.
  destruct (cell_read w) as [[d0|exn] w1]; cbn [snd] in *; [|auto].
  destruct (after_read_no_request d0 w1) as [Hrem' Hreq'].
  cbn zeta in Hrem', Hreq'. split.
  - transitivity (remote w1); [exact Hrem'|exact Hrem].
  - destruct Hreq as [Hreq|Hreq]; [left|right];
      (transitivity (requests w1); [exact Hreq'|exact Hreq]).
Qed.

End WholeRun.

(** ** The further properties on the small instance *)

Section OnToy.

Local Existing Instance Toy.spark.
Local Existing Instance Toy.mmlspark.

Lemma features_are_hashed_text_then_numbers_witness :
  exists d, data (map review_row [(5, "a good  book"); (3, "bad")]%Z) = Some d
    /\ (Forall has_words (map review_row [(5, "a good  book"); (3, "bad")]%Z) ->
        exists a, assembledData d = Some a
          /\ Forall2 (fun raw row =>
                       exists text,
                         field "text" raw = Some (VString text)
                         /\ field "features" row
                            = Some (VVector (hashing_tf numFeatures (tokenize text)
                                             ++ [Float64.of_Z (word_count text);
                                                 word_length text])))
                     (map review_row [(5, "a good  book"); (3, "bad")]%Z) a)
    /\ (Exists has_no_word (map review_row [(5, "a good  book"); (3, "bad")]%Z) ->
        assembledData d = None).
Proof.
  apply (features_are_hashed_text_then_numbers Cases.worded). reflexivity.
Defined.

(** The two reviews have their features. *)
Example features_of_two_reviews :
  Forall has_words (map review_row [(5, "a good  book"); (3, "bad")]%Z)
  /\ assembledData (map derived_row [(5, "a good  book"); (3, "bad")]%Z)
     = Some (map (fun r => derived_row r ++
                   [("tokenizedText", VArray (PyStr.split r.2));
                    ("TextFeatures",
                     VVector [Float64.of_Z (word_count r.2)]);
                    ("features",
                     VVector [Float64.of_Z (word_count r.2);
                              Float64.of_Z (word_count r.2);
                              word_length r.2])])%list
                 [(5, "a good  book"); (3, "bad")]%Z).
Proof.
  split; [|reflexivity].
  repeat (constructor; [eexists; repeat split; reflexivity|]). constructor.
Qed.

(** With a third review that has no word, the frame of the derived columns
    is there, and no features are assembled: what the specification says
    of every row fails on this frame. *)
Lemma blank_review_has_no_features :
  ~ exists d a,
      data (map review_row [(5, "a good  book"); (3, "bad"); (4, "  ")]%Z) = Some d
      /\ assembledData d = Some a
      /\ Forall2 (fun raw row =>
                   exists text,
                     field "text" raw = Some (VString text)
                     /\ field "features" row
                        = Some (VVector (hashing_tf numFeatures (tokenize text)
                                         ++ [Float64.of_Z (word_count text);
                                             word_length text])))
                 (map review_row [(5, "a good  book"); (3, "bad"); (4, "  ")]%Z) a.
Proof.
  intros (d & a & Hd & Ha & _).
  rewrite data_reviews in Hd. injection Hd as <-.
  assert (Hnan : assembledData
                   (map derived_row [(5, "a good  book"); (3, "bad"); (4, "  ")]%Z)
                 = None).
  { apply assembledData_nan. right. right. left. reflexivity. }
  assert (Hsome : assembledData
                    (map derived_row [(5, "a good  book"); (3, "bad"); (4, "  ")]%Z)
                  = Some a) by exact Ha.
  rewrite Hnan in Hsome. discriminate.
Qed.

Lemma data_drops_rating_witness :
  exists d, data (map review_row [(5, "a good  book"); (3, "bad"); (4, "  ")]%Z) = Some d
    /\ length d = length (map review_row [(5, "a good  book"); (3, "bad"); (4, "  ")]%Z)
    /\ Forall (fun row => map fst row = ["text"; "wordCount"; "wordLength"; "label"]
                          /\ field "rating" row = None) d
    /\ Forall2 (fun raw row => field "text" row = field "text" raw)
               (map review_row [(5, "a good  book"); (3, "bad"); (4, "  ")]%Z) d.
Proof. apply (data_drops_rating Toy.reviews). reflexivity. Defined.

Lemma processed_rows_are_label_and_features_witness :
  exists d a p,
    data (map review_row [(5, "a good  book"); (3, "bad")]%Z) = Some d
    /\ assembledData d = Some a /\ processedData a = Some p
    /\ Forall2 (fun raw row =>
                 exists rating text,
                   raw = review_row (rating, text)
                   /\ row = [("label", VInt (if (3 <? rating)%Z then 1 else 0));
                             ("features",
                              VVector (hashing_tf numFeatures (tokenize text)
                                       ++ [Float64.of_Z (word_count text);
                                           word_length text]))])
               (map review_row [(5, "a good  book"); (3, "bad")]%Z) p.
Proof.
  apply (processed_rows_are_label_and_features Cases.worded); [reflexivity|].
  repeat (constructor; [eexists; repeat split; reflexivity|]). constructor.
Defined.

Lemma cell_read_again_witness :
  cell_read (cell_read Toy.cached).2
  = (Ok [review_row (3%Z, "bad")],
     printing (cell_read Toy.cached).2 [PTable (take 5 [review_row (3%Z, "bad")])]).
Proof. apply (cell_read_again Toy.cached). reflexivity. Defined.

Lemma cell_read_failures_witness :
  stdout (downloaded Cases.cut "5	a go") = stdout Cases.cut
  /\ (downloaded Cases.cut "5	a go" = Cases.cut
      \/ downloaded Cases.cut "5	a go" = requested Cases.cut
      \/ (exists part,
            remote Cases.cut !! dataUrl = None
            /\ broken Cases.cut !! dataUrl = Some part
            /\ downloaded Cases.cut "5	a go" = downloaded Cases.cut part
            /\ requests (cell_read (downloaded Cases.cut "5	a go")).2
               = requests (downloaded Cases.cut "5	a go"))
      \/ (exists body,
            remote Cases.cut !! dataUrl = Some body /\ parsed body = None
            /\ downloaded Cases.cut "5	a go" = downloaded Cases.cut body)).
Proof.
  apply (cell_read_failures Cases.cut (downloaded Cases.cut "5	a go")
           "ContentTooShortError").
  reflexivity.
Defined.

(** After the transfer that broke off, the cell reads the part that
    arrived as if it were the data: one review, of a shortened text, and
    no request. *)
Example cell_read_after_broken_transfer :
  cell_read Cases.cut
  = (Raise "ContentTooShortError", downloaded Cases.cut "5	a go")
  /\ (cell_read (downloaded Cases.cut "5	a go")).1 = Ok [review_row (5%Z, "a go")]
  /\ requests (cell_read (downloaded Cases.cut "5	a go")).2 = [dataUrl].
Proof. repeat split; reflexivity. Qed.

(** With no file and a URL that cannot be opened, the request is all that
    is left of the run. *)
Example cell_read_offline :
  cell_read Cases.offline = (Raise "URLError", requested Cases.offline).
Proof. reflexivity. Qed.

Lemma cell_read_frame_witness :
  (exists rs, [review_row (3%Z, "bad")] = map review_row rs)
  /\ stdout (cell_read Toy.cached).2
     = (stdout Toy.cached ++ [PTable (take 5 [review_row (3%Z, "bad")])])%list
  /\ (requests (cell_read Toy.cached).2 = requests Toy.cached
      \/ requests (cell_read Toy.cached).2 = (requests Toy.cached ++ [dataUrl])%list).
Proof. apply (cell_read_frame Toy.cached). reflexivity. Defined.

Lemma notebook_unreadable_file_witness :
  exists exn, notebook Cases.garbled = (Raise exn, Cases.garbled).
Proof. apply (notebook_unreadable_file Cases.garbled "no table"); reflexivity. Defined.

Lemma notebook_normal_end_witness :
  exists text raw_data d p vars auc w0,
    (w0 = Toy.cached \/ w0 = downloaded Toy.cached text)
    /\ fs w0 !! dataFile = Some (File text)
    /\ parsed text = Some raw_data
    /\ Forall (fun raw => exists text,
                 field "text" raw = Some (VString text) /\ blank text = false)
              raw_data
    /\ data raw_data = Some d
    /\ (assembledData d ≫= processedData) = Some p
    /\ (cell_pyspark p Toy.cached).1 = Ok vars
    /\ first_field "AUC" (mml_statistics d) = Some auc
    /\ (notebook Toy.cached).2
       = {| fs := <["MMLSExperiment.mmls" := SavedBestModel (mml_best d)]>
                    (<["SparkMLExperiment.mmls" := SavedModel (best_model vars)]>
                       (fs w0));
            remote := remote Toy.cached; broken := broken Toy.cached;
            requests := requests w0;
            stdout := (stdout Toy.cached
                       ++ [PTable (take 5 raw_data); PTable (take 5 d);
                           PValue (VDouble (auc_on (validation vars)
                                                   (best_model vars)));
                           PValue auc])%list |}.
Proof.
  apply (notebook_normal_end Toy.cached (notebook Toy.cached).2). reflexivity.
Defined.

(** The notebook on the world that has the file: two tables and the two
    metrics are printed, and nothing is fetched. *)
Example notebook_cached :
  (notebook Toy.cached).1 = Ok tt
  /\ requests (notebook Toy.cached).2 = []
  /\ stdout (notebook Toy.cached).2
     = [PTable [review_row (3%Z, "bad")]; PTable [derived_row (3%Z, "bad")];
        PValue (VDouble (Float64.literal 4 10));
        PValue (VDouble (Float64.literal 5 100))].
Proof. repeat split; reflexivity. Qed.

(** A rating that does not fit 32 bits is refused, and a text cell that is
    no string is taken as its text. *)
Example createDataFrame_verifies :
  createDataFrame [[VInt 2147483648; VString "bad"]] textSchema = None
  /\ createDataFrame [[VDouble (Float64.of_Z 3); VString "bad"]] textSchema = None
  /\ createDataFrame [[VInt 3; VString "bad"; VString "more"]] textSchema = None
  /\ createDataFrame [[VInt 3; VInt 7]] textSchema = Some [review_row (3%Z, "7")].
Proof. repeat split; reflexivity. Qed.

End OnToy.

Lemma cell_mmlspark_without_auc_witness :
  exists exn,
    cell_mmlspark [] Cases.empty_world
    = (Raise exn,
       {| fs := <["MMLSExperiment.mmls" :=
                   SavedBestModel (mml_best (H := Toy.spark) (H0 := Cases.accuracy_only) [])]>
                  (fs Cases.empty_world);
          remote := remote Cases.empty_world; broken := broken Cases.empty_world;
          requests := requests Cases.empty_world;
          stdout := stdout Cases.empty_world |}).
Proof. apply (cell_mmlspark_without_auc [] Cases.empty_world). reflexivity. Defined.
